(** * remove_unused_imports.py: a shallow embedding and its properties

    The program is a line-oriented rewriter (Python 2).  It reads pyflakes
    diagnostics of the form [path:line: 'name' imported but unused], finds
    the import statement at the reported line and removes the unused
    symbols from it.

    Python values are embedded as follows.
    - [str] (a Python 2 byte string) is [string]; a newline is the
      character with code 10, written [nl] below.
    - [int] is [Z]; list indices are [Z] as well, because the index
      [line_num - 1 - line_adjustment] is computed by subtraction and
      Python gives a meaning to negative indices.
    - a list is a [list]; [set] is [gset]; the [defaultdict(list)] keyed
      by line numbers is a [gmap Z _].
    - a call that can raise returns a [result]; the exception classes the
      program can meet are the constructors of [exn].

    Embedded: [_clean_line], [parse_pyflake_unused_import_error],
    [get_modules_to_keep], [split_single_line_multi_imports],
    [build_multiline_import], the two grouping functions, the three edit
    handlers and [remove_unused_imports_from_file].  Not embedded:
    [get_unused_imports] and [process], which run pyflakes, and
    [remove_unused_imports], which only groups the diagnostics by file.
    The handlers change [file_lines] in place in some branches and build
    a new list in others; the caller always takes the returned list, so
    the embedding returns the list and keeps no shared store. *)

From stdpp Require Import base option list sorting gmap strings.
From Stdlib Require Import ZArith Lia Ascii.

Local Open Scope Z_scope.

(** ** Exceptions and results *)

Inductive exn : Type :=
  | ValueError      (* tuple unpacking of the wrong size, [int] of a non-number *)
  | IndexError      (* list index or [pop] index out of range *)
  | AttributeError  (* [.groups] of a failed [re.match], which is [None] *)
  | IOError         (* [open] of a missing file *)
  | ReError.        (* [re] refusing a pattern *)

(** [OutOfFuel] is not a Python outcome: the two [while] loops of the
    program are written with a step budget, and [OutOfFuel] says that the
    budget was used up.  Lemmas [group_multiline_loop_fuel] and
    [group_escaped_loop_fuel] show that the budget the program's functions
    pass is never used up. *)
Inductive result (A : Type) : Type :=
  | Ok (a : A)
  | Raise (e : exn)
  | OutOfFuel.
Arguments Ok {A} a.
Arguments Raise {A} e.
Arguments OutOfFuel {A}.

Global Instance result_ret : MRet result := λ A a, Ok a.
Global Instance result_bind : MBind result := λ A B f m,
  match m with
  | Ok a => f a
  | Raise e => Raise e
  | OutOfFuel => OutOfFuel
  end.

Global Instance result_fmap : FMap result := λ A B f m,
  match m with
  | Ok a => Ok (f a)
  | Raise e => Raise e
  | OutOfFuel => OutOfFuel
  end.

(** A [for] loop whose body can raise, threading the loop's state. *)
Fixpoint for_each {A S : Type} (body : S → A → result S) (l : list A) (s : S)
  : result S :=
  match l with
  | [] => Ok s
  | x :: l' => s' ← body s x; for_each body l' s'
  end.

(** ** Python's string and list primitives *)

Module Py.

Definition nl : string := String "010"%char "".

  (** A physical line: the text followed by a newline. *)
Definition ln (s : string) : string := s +:+ nl.

  (** [string.whitespace] of Python 2, which is also what [\s] matches in
      a byte pattern: tab, newline, vertical tab, form feed, carriage
      return and space. *)
Definition is_space (c : ascii) : bool := Ascii.is_space c.

Fixpoint mem (c : ascii) (s : string) : bool :=
    match s with
    | EmptyString => false
    | String d s' => if decide (c = d) then true else mem c s'
    end.

Fixpoint all (p : ascii → bool) (s : string) : bool :=
    match s with
    | EmptyString => true
    | String c s' => p c && all p s'
    end.

Fixpoint count (c : ascii) (s : string) : nat :=
    match s with
    | EmptyString => 0%nat
    | String d s' => ((if decide (c = d) then 1 else 0) + count c s')%nat
    end.

Fixpoint lstrip_with (p : ascii → bool) (s : string) : string :=
    match s with
    | EmptyString => ""
    | String c s' => if p c then lstrip_with p s' else s
    end.

Fixpoint rstrip_with (p : ascii → bool) (s : string) : string :=
    match s with
    | EmptyString => ""
    | String c s' =>
        match rstrip_with p s' with
        | EmptyString => if p c then "" else String c ""
        | r => String c r
        end
    end.

  (** [s.strip()] *)
Definition strip (s : string) : string :=
    rstrip_with is_space (lstrip_with is_space s).

  (** [s.strip(chars)] *)
Definition strip_chars (chars s : string) : string :=
    rstrip_with (λ c, mem c chars) (lstrip_with (λ c, mem c chars) s).

  (** [s.split(sep)] for a non-empty [sep] (the program only splits on the
      literals [':'], [','] and ['import']).  [skip] counts the characters
      of a separator that was just recognised and are still to be passed. *)
Fixpoint split_go (sep : string) (skip : nat) (s : string) : list string :=
    match s with
    | EmptyString => [""]
    | String c s' =>
        match skip with
        | S k => split_go sep k s'
        | O =>
            if String.prefix sep s
            then "" :: split_go sep (String.length sep - 1) s'
            else match split_go sep 0 s' with
                 | h :: t => String c h :: t
                 | [] => [String c ""]
                 end
        end
    end.

Definition split (sep s : string) : list string := split_go sep 0 s.

  (** [sep.join(l)] *)
Definition join (sep : string) (l : list string) : string :=
    String.concat sep l.

  (** [sub in s] *)
Fixpoint contains (sub s : string) : bool :=
    String.prefix sub s ||
    match s with
    | EmptyString => false
    | String _ s' => contains sub s'
    end.

  (** [s.endswith(suffix)] *)
Definition endswith (suffix s : string) : bool :=
    bool_decide (String.length suffix ≤ String.length s)%nat &&
    bool_decide (String.substring (String.length s - String.length suffix)
                   (String.length suffix) s = suffix).

  (** [s.startswith(p)] followed by the rest of [s], as a pattern
      literal is consumed by the matcher. *)
Fixpoint eat (p s : string) : option string :=
    match p with
    | EmptyString => Some s
    | String c p' =>
        match s with
        | EmptyString => None
        | String d s' => if decide (c = d) then eat p' s' else None
        end
    end.

  (** [int(s)] for a [str]: surrounding whitespace, an optional sign and
      at least one decimal digit. *)
Fixpoint digits (acc : Z) (s : string) : option Z :=
    match s with
    | EmptyString => Some acc
    | String c s' =>
        match Ascii.is_nat c with
        | Some d => digits (10 * acc + Z.of_nat d) s'
        | None => None
        end
    end.

Definition int (s : string) : result Z :=
    let unsigned (t : string) : result Z :=
      match t with
      | EmptyString => Raise ValueError
      | _ => from_option Ok (Raise ValueError) (digits 0 t)
      end in
    match strip s with
    | String "-" t => z ← unsigned t; Ok (- z)
    | String "+" t => unsigned t
    | t => unsigned t
    end.

  (** *** Lists indexed by Python integers *)

Section lists.
Context {A : Type}.

Definition len (l : list A) : Z := Z.of_nat (length l).

    (** The position a subscript denotes: negative subscripts count from
        the end; [None] when out of range. *)
Definition norm_index (l : list A) (i : Z) : option nat :=
      if decide (0 ≤ i < len l) then Some (Z.to_nat i)
      else if decide (- len l ≤ i < 0) then Some (Z.to_nat (len l + i))
      else None.

    (** The bound of a slice: negative bounds count from the end and
        every bound is clamped to [0 .. len l]. *)
Definition clamp_index (l : list A) (i : Z) : nat :=
      Z.to_nat (Z.min (len l) (Z.max 0 (if decide (i < 0) then len l + i else i))).

    (** [l[i]] *)
Definition getitem (l : list A) (i : Z) : result A :=
      match norm_index l i with
      | Some k => from_option Ok (Raise IndexError) (l !! k)
      | None => Raise IndexError
      end.

    (** [l.pop(i)], keeping the list that remains. *)
Definition pop (l : list A) (i : Z) : result (list A) :=
      match norm_index l i with
      | Some k => Ok (take k l ++ drop (S k) l)
      | None => Raise IndexError
      end.

    (** [l.insert(i, x)] *)
Definition insert (l : list A) (i : Z) (x : A) : list A :=
      take (clamp_index l i) l ++ x :: drop (clamp_index l i) l.

    (** [l[:i]] *)
Definition slice_to (l : list A) (i : Z) : list A :=
      take (clamp_index l i) l.

    (** [l[i:]] *)
Definition slice_from (l : list A) (i : Z) : list A :=
      drop (clamp_index l i) l.
End lists.

End Py.

(** [sorted(l)] on strings: byte-wise lexicographic order.  Elements that
    compare equal are equal strings, so the result does not depend on the
    sorting algorithm. *)
Definition sorted (l : list string) : list string := merge_sort String.le l.

(** ** The two fixed patterns, as [re.match] runs them

    [re.match] anchors at the start of the text and does not require the
    pattern to reach its end; [.] matches every character but a newline;
    [*] is greedy and gives characters back one at a time. *)

Module Re.

  (** [.*] followed by the literal [lit]: the text taken by [.*] and what
      is left after [lit].  The star first tries to take the next
      character (not a newline) and only then tries [lit] here. *)
Fixpoint dot_star_then (lit s : string) : option (string * string) :=
    let here := (λ rest, ("", rest)) <$> Py.eat lit s in
    match s with
    | EmptyString => here
    | String c s' =>
        if decide (c = "010"%char) then here
        else match dot_star_then lit s' with
             | Some (taken, rest) => Some (String c taken, rest)
             | None => here
             end
    end.

  (** [\s*]: the whitespace taken and what is left.  What follows [\s*]
      in [BASE_IMPORT_RE] starts with a letter, so giving whitespace back
      never helps and the longest run is the only candidate. *)
Fixpoint spaces (s : string) : string * string :=
    match s with
    | EmptyString => ("", "")
    | String c s' =>
        if Py.is_space c
        then let '(ws, rest) := spaces s' in (String c ws, rest)
        else ("", s)
    end.

  (** The pattern sources, as the class has them. *)
Definition UNUSED_MODULE_NAME_RE : string := "'(.*)'.*".
Definition BASE_IMPORT_RE : string := "(\s*)(from .*)?import .*".

  (** [re.match(UNUSED_MODULE_NAME_RE, s)]: group 1 of the match, if any:
      a quote, the group, a quote.  The trailing [.*] always matches. *)
Definition match_unused_module_name (s : string) : option string :=
    rest ← Py.eat "'" s;
    '(name, _) ← dot_star_then "'" rest;
    Some name.

  (** [re.match(BASE_IMPORT_RE, s)]: the groups of the match, if any,
      with the empty string for a group that took no part.  The optional
      group is tried first; when it cannot be completed by [import ] the
      pattern goes on without it and group 2 takes the default. *)
Definition match_base_import (s : string) : option (string * string) :=
    let '(padding, rest) := spaces s in
    match Py.eat "from " rest ≫= dot_star_then "import " with
    | Some (taken, _) => Some (padding, "from " +:+ taken)
    | None =>
        match Py.eat "import " rest with
        | Some _ => Some (padding, "")
        | None => None
        end
    end.

Definition UNUSED_IMPORT_RE : string := ".* imported but unused$".

(** [re.match(UNUSED_IMPORT_RE, s)] as a truth value.  [$] holds at the
    end of the text and before a newline that ends the text.  The star
    is tried from the longest run down, so [dot_star_then] gives the
    candidate with the shortest remainder; the remainders of the other
    candidates hold the whole phrase again, so none of them is empty or a
    newline when this one is not. *)
Definition match_unused_import (s : string) : bool :=
  match dot_star_then " imported but unused" s with
  | Some (_, rest) => bool_decide (rest = "") || bool_decide (rest = Py.nl)
  | None => false
  end.

End Re.

(** ** Files and standard output *)

Module Fs.

Inductive event : Type :=
    | Opened_for_reading (path : string)
    | Opened_for_writing (path : string).

  (** The part of the world the program touches: the content of every
      file, what was printed, and which files were opened, latest first. *)
Record world : Type := World {
    files : gmap string string;
    stdout : list string;
    opened : list event;
  }.

  (** [print a, b]: one line on standard output. *)
Definition print (text : string) (w : world) : world :=
    World (files w) (stdout w ++ [text]) (opened w).

  (** [f.readlines()]: the content cut after every newline. *)
Fixpoint readlines (content : string) : list string :=
    match content with
    | EmptyString => []
    | String c rest =>
        if decide (c = "010"%char) then String c "" :: readlines rest
        else match readlines rest with
             | [] => [String c ""]
             | line :: lines => String c line :: lines
             end
    end.

  (** [f.writelines(lines)]: the lines one after the other. *)
Definition writelines (lines : list string) : string :=
    String.concat "" lines.

  (** [with open(path, 'r') as f: f.readlines()] *)
Definition read_lines (path : string) (w : world)
    : result (list string * world) :=
    match files w !! path with
    | Some content =>
        Ok (readlines content,
            World (files w) (stdout w) (Opened_for_reading path :: opened w))
    | None => Raise IOError
    end.

  (** [with open(path, 'w') as f: f.writelines(lines)], on a path that
      can be written. *)
Definition write_lines (path : string) (lines : list string) (w : world)
    : world :=
    World (<[path := writelines lines]> (files w)) (stdout w)
          (Opened_for_writing path :: opened w).

End Fs.

(** ** The program *)

Module RemoveUnusedImports.
Import Py.

Definition ESCAPE_CHARACTER : string := "\".

  (** [re.sub(r'[\\\s]', '', line)] *)
Fixpoint _clean_line (line : string) : string :=
    match line with
    | EmptyString => ""
    | String c s =>
        if bool_decide (c = "\"%char) || is_space c
        then _clean_line s
        else String c (_clean_line s)
    end.

Definition parse_pyflake_unused_import_error (error_line : string)
    : result (string * string * option string) :=
    match split ":" error_line with
    | [path; line_num; error] =>
        let unused_module := Re.match_unused_module_name (strip error) in
        Ok (path, line_num, unused_module)
    | _ => Raise ValueError
    end.

  (** [sorted(list(set(imports) - set(unused_imports)))].  An unused
      module can be [None] (see [parse_pyflake_unused_import_error]);
      [None] equals no string, so it removes nothing from the set. *)
Definition get_modules_to_keep
      (imports : list string) (unused_imports : list (option string))
    : list string :=
    sorted (elements ((list_to_set imports : gset string)
                        ∖ list_to_set (omap id unused_imports))).

Definition split_single_line_multi_imports (line : string)
    : result (list string) :=
    imported_modules_string ←
      match split "import" line with
      | _ :: x :: _ => Ok (strip x)
      | _ => Raise IndexError
      end;
    let imported_modules := strip <$> split "," imported_modules_string in
    Ok (filter (λ x, x ≠ "") imported_modules).

Definition build_multiline_import
      (padding base_import : string) (imports : list string) : string :=
    if decide (base_import = "")
    then "import " +:+ join ", " (sorted imports) +:+ nl
    else
      let output := padding +:+ base_import +:+ "import (" +:+ nl in
      let output :=
        foldl (λ output _import,
                 output +:+ (padding +:+ "    " +:+ _import +:+ "," +:+ nl))
              output (sorted imports) in
      output +:+ (padding +:+ ")" +:+ nl).

  (** The budget of a forward scan that starts at [current_index]: one
      more than the number of subscripts up to the end of the buffer. *)
Definition scan_fuel (file_lines : list string) (current_index : Z) : nat :=
    S (Z.to_nat (len file_lines - current_index)).

Fixpoint group_multiline_loop (fuel : nat) (file_lines : list string)
      (current_index : Z) (group : list string) : result (list string * Z) :=
    match fuel with
    | O => OutOfFuel
    | S fuel =>
        line ← getitem file_lines current_index;
        let current_line := strip line in
        if decide (current_line = ")")
        then Ok (group, current_index)
        else group_multiline_loop fuel file_lines (current_index + 1)
               (group ++ [strip_chars "," current_line])
    end.

Definition group_multiline_imports
      (start_index : Z) (file_lines : list string) : result (list string * Z) :=
    let current_index := start_index + 1 in
    group_multiline_loop (scan_fuel file_lines current_index)
      file_lines current_index [].

Fixpoint group_escaped_loop (fuel : nat) (file_lines : list string)
      (current_index : Z) (group : list string) : result (list string * Z) :=
    match fuel with
    | O => OutOfFuel
    | S fuel =>
        line ← getitem file_lines current_index;
        let current_line := strip line in
        if negb (contains ESCAPE_CHARACTER current_line)
        then Ok (group ++ [strip_chars "," current_line], current_index)
        else group_escaped_loop fuel file_lines (current_index + 1)
               (group ++ [strip_chars "," (_clean_line current_line)])
    end.

Definition group_escaped_imports
      (start_index : Z) (file_lines : list string) : result (list string * Z) :=
    let current_index := start_index + 1 in
    first_line ← getitem file_lines start_index;
    imported_modules ← split_single_line_multi_imports (_clean_line first_line);
    group_escaped_loop (scan_fuel file_lines current_index)
      file_lines current_index imported_modules.

  (** [re.match(BASE_IMPORT_RE, line).groups('')]; a failed match is
      [None], whose [groups] attribute does not exist. *)
Definition base_import_groups (line : string) : result (string * string) :=
    from_option Ok (Raise AttributeError) (Re.match_base_import line).

Definition handle_single_line_multiple_imports
      (unused_imports : list (option string)) (index : Z)
      (unused_import_line : string) (line_adjustment : Z)
      (file_lines : list string) : result (Z * list string) :=
    '(imported_modules, line_adjustment, file_lines) ←
      (if contains ESCAPE_CHARACTER unused_import_line
       then
         '(imported_modules, end_index) ← group_escaped_imports index file_lines;
         let file_lines :=
           slice_to file_lines index ++ slice_from file_lines (end_index + 1) in
         Ok (imported_modules, line_adjustment + (end_index - index), file_lines)
       else
         imported_modules ← split_single_line_multi_imports unused_import_line;
         file_lines ← pop file_lines index;
         Ok (imported_modules, line_adjustment, file_lines));
    let modules_to_keep := get_modules_to_keep imported_modules unused_imports in
    match modules_to_keep with
    | [] => Ok (line_adjustment + 1, file_lines)
    | only :: others =>
        '(padding, base_import) ← base_import_groups unused_import_line;
        let new_line :=
          match others with
          | _ :: _ => build_multiline_import padding base_import modules_to_keep
          | [] => padding +:+ base_import +:+ ("import " +:+ only +:+ nl)
          end in
        Ok (line_adjustment, insert file_lines index new_line)
    end.

Definition handle_multiline_imports
      (unused_imports : list (option string)) (index : Z)
      (unused_import_line : string) (line_adjustment : Z)
      (file_lines : list string) : result (Z * list string) :=
    '(imported_modules, end_index) ← group_multiline_imports index file_lines;
    let modules_to_keep := get_modules_to_keep imported_modules unused_imports in
    let old_length := len file_lines in
    let file_lines :=
      slice_to file_lines index ++ slice_from file_lines (end_index + 1) in
    file_lines ←
      match modules_to_keep with
      | [] => Ok file_lines
      | [only] =>
          let unused_import_line := strip_chars ("(" +:+ nl) unused_import_line in
          Ok (insert file_lines index (unused_import_line +:+ only +:+ nl))
      | _ =>
          '(padding, base_import) ← base_import_groups unused_import_line;
          let new_line := build_multiline_import padding base_import modules_to_keep in
          Ok (insert file_lines index new_line)
      end;
    Ok (line_adjustment + (old_length - len file_lines), file_lines).

Definition handle_single_line_imports
      (index line_adjustment : Z) (file_lines : list string)
    : result (Z * list string) :=
    file_lines ← pop file_lines index;
    Ok (line_adjustment + 1, file_lines).

Section orchestrator.

    (** [re.match(SINGLE_IMPORT_RE % (name,), text)] as a truth value.
        The pattern is assembled at run time from the reported name, whose
        characters [re] reads as pattern syntax, so the outcome is left to
        the pattern engine: it is a parameter of the orchestrator. *)
Variable re_match_single_import : string → string → result bool.

    (** [self.commit_changes] *)
Variable commit_changes : bool.

    (** ['%s' % (x,)] *)
Definition percent_s (x : option string) : string := default "None" x.

    (** The first loop: [unused_imports_by_line[int(line_num)].append(m)]
        on a [defaultdict(list)]. *)
Definition group_by_line (unused_imports : list (string * option string))
      : result (gmap Z (list (option string))) :=
      for_each
        (λ (by_line : gmap Z (list (option string))) '(line_num, unused_module),
           key ← int line_num;
           Ok (<[key := default [] (by_line !! key) ++ [unused_module]]> by_line))
        unused_imports ∅.

    (** [sorted(unused_imports_by_line.keys())] *)
Definition sorted_keys (by_line : gmap Z (list (option string))) : list Z :=
      merge_sort Z.le (elements (dom by_line)).

    (** The body of the second loop, on the pair
        [(line_adjustment, file_lines)]. *)
Definition apply_edit (by_line : gmap Z (list (option string)))
        (state : Z * list string) (line_num : Z) : result (Z * list string) :=
      let '(line_adjustment, file_lines) := state in
      let unused_imports := default [] (by_line !! line_num) in
      let index := line_num - 1 - line_adjustment in
      unused_import_line ← getitem file_lines index;
      if decide (1 < length (split "," unused_import_line))%nat
      then handle_single_line_multiple_imports
             unused_imports index unused_import_line line_adjustment file_lines
      else if endswith ("(" +:+ nl) unused_import_line
      then handle_multiline_imports
             unused_imports index unused_import_line line_adjustment file_lines
      else
        first ← from_option Ok (Raise IndexError) (head unused_imports);
        matched ← re_match_single_import (percent_s first) (strip unused_import_line);
        if (matched : bool)
        then handle_single_line_imports index line_adjustment file_lines
        else Ok (line_adjustment, file_lines).

Definition remove_unused_imports_from_file (file_path : string)
        (unused_imports : list (string * option string)) (w : Fs.world)
      : result Fs.world :=
      if endswith "__init__.py" file_path
      then Ok (Fs.print ("ignoring __init__.py file: " +:+ file_path) w)
      else
        let w := Fs.print ("removing unused imports from file: " +:+ file_path) w in
        '(file_lines, w) ← Fs.read_lines file_path w;
        by_line ← group_by_line unused_imports;
        '(_, file_lines) ←
          for_each (apply_edit by_line) (sorted_keys by_line) (0, file_lines);
        if commit_changes
        then Ok (Fs.write_lines file_path file_lines w)
        else Ok w.

End orchestrator.

(** The second half of [get_unused_imports]: the loop over the lines of
    the report pyflakes has written, which keeps the lines whose stripped
    text matches [UNUSED_IMPORT_RE].  The run of pyflakes and the
    temporary file that carries the report are not embedded. *)
Definition unused_import_lines (report_lines : list string) : list string :=
  filter (λ line, Re.match_unused_import (strip line) = true) report_lines.

Section batch.

Variable re_match_single_import : string → string → result bool.
Variable commit_changes : bool.

(** [files_to_clean.iteritems()]: the items of the dict, in the order the
    dict gives them.  Python 2 leaves that order open, so it is a
    parameter; what is known of it is that it lists the items of the
    dict (hypothesis [iteritems_spec] of the properties below). *)
Variable iteritems :
  gmap string (list (string * option string)) →
  list (string * list (string * option string)).

(** The first loop of [remove_unused_imports]:
    [files_to_clean[path].append((line_num, unused_module))] on a
    [defaultdict(list)]. *)
Definition group_by_file (unused_imports : list string)
  : result (gmap string (list (string * option string))) :=
  for_each
    (λ (files_to_clean : gmap string (list (string * option string)))
       unused_import_error,
       '(path, line_num, unused_module) ←
         parse_pyflake_unused_import_error unused_import_error;
       Ok (<[path := default [] (files_to_clean !! path)
                       ++ [(line_num, unused_module)]]> files_to_clean))
    unused_imports ∅.

Definition remove_unused_imports (unused_imports : list string) (w : Fs.world)
  : result Fs.world :=
  files_to_clean ← group_by_file unused_imports;
  for_each
    (λ w '(file_path, unused_imports),
       remove_unused_imports_from_file re_match_single_import commit_changes
         file_path unused_imports w)
    (iteritems files_to_clean) w.

End batch.

End RemoveUnusedImports.

(** ** Vocabulary of the statements

    The shapes the properties below speak about: what a line of a
    statement contributes as a symbol, and the rewriter's parenthesised
    output form, line by line. *)

(** The symbol a line of a parenthesised statement contributes, which is
    also what the last line of a backslash statement contributes. *)
Definition multiline_symbol (line : string) : string :=
  Py.strip_chars "," (Py.strip line).


(** The parenthesised statement for [imports], in this order: the opening
    line, one line per symbol with four more spaces and a comma, and the
    closing parenthesis. *)
Definition block_lines (padding base_import : string) (imports : list string)
  : list string :=
  Py.ln (padding +:+ base_import +:+ "import (")
  :: ((λ s, Py.ln (padding +:+ "    " +:+ s +:+ ",")) <$> imports)
  ++ [Py.ln (padding +:+ ")")].

(** The buffer of the grouping example. *)
Definition example_multiline : list string :=
  [Py.ln "import m"; Py.ln "from p import ("; Py.ln "   a,"; Py.ln "   b,";
   Py.ln ")"; Py.ln ""; Py.ln "import e"].

(** A symbol without whitespace or commas around it. *)
Definition plain_symbol (s : string) : Prop :=
  Py.strip s = s ∧ Py.strip_chars "," s = s.

(** A symbol as the rewriter writes it on a line of several: no
    whitespace around it, not empty, no comma in it. *)
Definition line_symbol (s : string) : Prop :=
  Py.strip s = s ∧ s ≠ "" ∧ Py.mem "," s = false.

(** [before] with the lines [index .. end_index] replaced by at most one
    line: the lines before [index] and the lines after [end_index] are
    kept, in their order. *)
Definition edits_span (index end_index : Z) (before after : list string) : Prop :=
  ∃ replacement : list string,
    (length replacement ≤ 1)%nat
    ∧ after = take (Z.to_nat index) before ++ replacement
                ++ drop (S (Z.to_nat end_index)) before.

(** [file_lines] is [original] after edits that reached no further than
    the original position [watermark], and [line_adjustment] is the
    number of elements lost: every original position after [watermark]
    is found [line_adjustment] places earlier. *)
Definition aligned (original : list string) (watermark line_adjustment : Z)
    (file_lines : list string) : Prop :=
  line_adjustment = Py.len original - Py.len file_lines
  ∧ 0 ≤ line_adjustment ≤ watermark + 1
  ∧ ∀ k, watermark < k →
      Py.getitem file_lines (k - line_adjustment) = Py.getitem original k.

(** A file whose second diagnostic points into the statement of the
    first: the buffer as read, the diagnostics, and the buffer after the
    first and after the second edit. *)
Definition example_overlap : list string :=
  [Py.ln "from p import ("; Py.ln "a,"; Py.ln ")"; Py.ln "import b, \"; Py.ln "c"].
Definition example_overlap_diagnostics : list (string * option string) :=
  [("1", Some "a"); ("2", Some "b")].
Definition example_overlap_by_line : gmap Z (list (option string)) :=
  {[ 1 := [Some "a"]; 2 := [Some "b"] ]}.
Definition example_overlap_first : list string :=
  [Py.ln "import b, \"; Py.ln "c"].
Definition example_overlap_second : list string :=
  [Py.ln "import c"; Py.ln "import b, \"; Py.ln "c"].

(** A file whose second diagnostic is reached through a negative index.
    The first statement closes its parenthesis on the line of its last
    symbol, so the scan of the first edit runs on to the closing line of
    the next parenthesis, and the adjustment grows past the line number
    of the second statement.  The buffer as read, the diagnostics by
    line, the statement the first edit writes, and the buffer after the
    first and after the second edit. *)
Definition example_negative : list string :=
  [Py.ln "from p import ("; Py.ln "    a,"; Py.ln "    b)"; Py.ln "import c";
   Py.ln "f = lambda: ("; Py.ln "    d,"; Py.ln "    e,"; Py.ln ")";
   Py.ln "from q import ("; Py.ln "    d,"; Py.ln "    e,"; Py.ln ")"].
Definition example_negative_by_line : gmap Z (list (option string)) :=
  {[ 1 := [Some "a"; Some "b"]; 4 := [Some "c"] ]}.
Definition example_negative_block : string :=
  Py.ln "from p import (" +:+ Py.ln "    b)," +:+ Py.ln "    d," +:+ Py.ln "    e,"
  +:+ Py.ln "    f = lambda: (," +:+ Py.ln "    import c," +:+ Py.ln ")".
Definition example_negative_first : list string :=
  [example_negative_block;
   Py.ln "from q import ("; Py.ln "    d,"; Py.ln "    e,"; Py.ln ")"].
Definition example_negative_second : list string :=
  [example_negative_block; example_negative_block;
   Py.ln "from q import (" +:+ Py.ln "    d," +:+ Py.ln "    e," +:+ Py.ln ")";
   Py.ln "from q import ("; Py.ln "    d,"; Py.ln "    e,"; Py.ln ")"].

(** A statement on one line between two other lines, and the buffer
    after its edit at the index [-2]. *)
Definition example_from_the_end : list string :=
  [Py.ln "x = 1"; Py.ln "import a, b"; Py.ln "y = 2"].
Definition example_from_the_end_edited : list string :=
  [Py.ln "import a"; Py.ln "x = 1"; Py.ln "y = 2"].

(** The unused modules the diagnostics report at line [n], in the order
    of the diagnostics. *)
Definition reported_at (n : Z) (diags : list (string * option string))
  : list (option string) :=
  omap (λ d, match Py.int d.1 with
             | Ok m => if decide (m = n) then Some d.2 else None
             | _ => None
             end) diags.

(** The lines of [lines] whose 1-based number is not in [line_nums],
    numbering from [first]. *)
Fixpoint without_lines (line_nums : list Z) (first : Z) (lines : list string)
  : list string :=
  match lines with
  | [] => []
  | line :: lines =>
      if decide (first ∈ line_nums)
      then without_lines line_nums (first + 1) lines
      else line :: without_lines line_nums (first + 1) lines
  end.

(** Line [n] of the file [original] is a statement that imports one
    name: it has no comma, does not end with an opening parenthesis, and
    the pattern made from the first module reported at [n] matches it. *)
Definition single_import_at
    (re_match_single_import : string → string → result bool)
    (by_line : gmap Z (list (option string))) (original : list string)
    (n : Z) : Prop :=
  ∃ line first,
    1 ≤ n ∧ original !! Z.to_nat (n - 1) = Some line
    ∧ Py.mem "," line = false
    ∧ Py.endswith ("(" +:+ Py.nl) line = false
    ∧ head (default [] (by_line !! n)) = Some first
    ∧ re_match_single_import (RemoveUnusedImports.percent_s first) (Py.strip line)
      = Ok true.

(** A pattern engine for the examples: it finds a single import in every
    line. *)
Definition re_always : string → string → result bool := λ _ _, Ok true.

(** A pattern engine for the examples: it finds no single import. *)
Definition re_never : string → string → result bool := λ _ _, Ok false.

(** * Properties *)

Import RemoveUnusedImports.

(** ** Strings *)

Section string_facts.
Implicit Types (s t u : string) (c d : ascii) (p : ascii → bool).

Lemma str_app_nil_l s : "" +:+ s = s.
  Proof. reflexivity. Qed.

Lemma str_app_cons c s t : String c s +:+ t = String c (s +:+ t).
  Proof. reflexivity. Qed.

Lemma str_app_nil_r s : s +:+ "" = s.
  Proof. induction s as [|c s IH]; [done|]. by rewrite str_app_cons, IH. Qed.

Lemma str_app_assoc s t u : (s +:+ t) +:+ u = s +:+ (t +:+ u).
  Proof. induction s as [|c s IH]; [done|]. by rewrite !str_app_cons, IH. Qed.

Lemma count_app c s t :
    Py.count c (s +:+ t) = (Py.count c s + Py.count c t)%nat.
  Proof.
    induction s as [|d s IH]; [done|]. rewrite str_app_cons. simpl. rewrite IH. lia.
  Qed.

Lemma mem_app c s t : Py.mem c (s +:+ t) = Py.mem c s || Py.mem c t.
  Proof.
    induction s as [|d s IH]; [done|]. rewrite str_app_cons. simpl.
    by destruct (decide (c = d)).
  Qed.

Lemma mem_count c s : Py.mem c s = false ↔ Py.count c s = 0%nat.
  Proof.
    induction s as [|d s IH]; [done|]. simpl.
    destruct (decide (c = d)); [split; [done|lia]|]. by rewrite IH.
  Qed.

Lemma all_app p s t : Py.all p (s +:+ t) = Py.all p s && Py.all p t.
  Proof.
    induction s as [|d s IH]; [done|]. rewrite str_app_cons. simpl.
    by rewrite IH, andb_assoc.
  Qed.

  (** The loop of [build_multiline_import] appends one piece per element. *)
Lemma foldl_append (f : string → string) (l : list string) s :
    foldl (λ out x, out +:+ f x) s l = s +:+ String.concat "" (f <$> l).
  Proof.
    revert s. induction l as [|x l IH]; intros s; simpl.
    - by rewrite str_app_nil_r.
    - rewrite IH, str_app_assoc. f_equal. destruct l; simpl; [|done].
      by rewrite str_app_nil_r.
  Qed.

Lemma concat_nil_cons s (l : list string) :
    String.concat "" (s :: l) = s +:+ String.concat "" l.
  Proof. destruct l; simpl; [by rewrite str_app_nil_r|done]. Qed.

Lemma concat_nil_app (l k : list string) :
    String.concat "" (l ++ k) = String.concat "" l +:+ String.concat "" k.
  Proof.
    induction l as [|s l IH]; [done|].
    rewrite <- app_comm_cons, !concat_nil_cons, IH. by rewrite str_app_assoc.
  Qed.
End string_facts.

(** ** Sorting *)

Lemma sorted_Permutation (l : list string) : sorted l ≡ₚ l.
Proof. apply merge_sort_Permutation. Qed.

Lemma sorted_StronglySorted (l : list string) : StronglySorted String.le (sorted l).
Proof. apply StronglySorted_merge_sort; apply _. Qed.

(** A sorted list is its own [sorted]. *)
Lemma sorted_id (l : list string) : StronglySorted String.le l → sorted l = l.
Proof.
  intros Hl. apply (StronglySorted_unique String.le); [apply sorted_StronglySorted|done|].
  apply sorted_Permutation.
Qed.

Lemma sorted_idemp (l : list string) : sorted (sorted l) = sorted l.
Proof. apply sorted_id, sorted_StronglySorted. Qed.

(** ** [get_modules_to_keep] *)

Lemma get_modules_to_keep_Permutation imports unused :
  get_modules_to_keep imports unused ≡ₚ
  elements ((list_to_set imports : gset string) ∖ list_to_set (omap id unused)).
Proof. apply sorted_Permutation. Qed.

Lemma elem_of_omap_id (s : string) (unused : list (option string)) :
  s ∈ omap id unused ↔ Some s ∈ unused.
Proof.
  rewrite list_elem_of_omap. split.
  - intros (o & Ho & Heq). simpl in Heq. by subst.
  - intros H. by exists (Some s).
Qed.

Lemma elem_of_get_modules_to_keep s imports unused :
  s ∈ get_modules_to_keep imports unused ↔ s ∈ imports ∧ Some s ∉ unused.
Proof.
  rewrite get_modules_to_keep_Permutation, elem_of_elements, elem_of_difference,
    !elem_of_list_to_set, elem_of_omap_id. done.
Qed.

(** C9: for every list of imported symbols and every list of unused
    symbols, with no assumption that the second is part of the first,
    [get_modules_to_keep] returns the difference as a list in
    alphabetical order and without repetition: a symbol is returned
    exactly when it is imported and not unused, and two lists of unused
    symbols that agree on the imported symbols give the same result, so
    that unused symbols that are not imported have no effect. *)
Theorem get_modules_to_keep_spec (imports : list string) (unused : list (option string)) :
  let keep := get_modules_to_keep imports unused in
  StronglySorted String.le keep
  ∧ NoDup keep
  ∧ (∀ s, s ∈ keep ↔ s ∈ imports ∧ Some s ∉ unused)
  ∧ (∀ unused', (∀ s, s ∈ imports → Some s ∈ unused ↔ Some s ∈ unused') →
       get_modules_to_keep imports unused' = keep).
Proof.
  intros keep. split_and!.
  - apply sorted_StronglySorted.
  - unfold keep. rewrite get_modules_to_keep_Permutation. apply NoDup_elements.
  - intros s. apply elem_of_get_modules_to_keep.
  - intros unused' Hagree. unfold keep, get_modules_to_keep. f_equal. f_equal.
    apply set_eq. intros s.
    rewrite !elem_of_difference, !elem_of_list_to_set, !elem_of_omap_id.
    split; intros [Hs Hn]; (split; [done|]); specialize (Hagree s Hs); tauto.
Qed.

(** ** The diagnostic parser *)

Lemma split_char_length c s :
  length (Py.split (String c "") s) = S (Py.count c s).
Proof.
  unfold Py.split. induction s as [|d s IH]; [done|].
  cbn [Py.split_go Py.count String.prefix].
  destruct (ascii_dec c d) as [->|Hne].
  - destruct s; simpl; rewrite decide_True by done; simpl in *; by rewrite ?IH.
  - rewrite decide_False by done.
    destruct (Py.split_go (String c "") 0 s); simpl in *; lia.
Qed.

Lemma eat_Some p s r : Py.eat p s = Some r ↔ s = p +:+ r.
Proof.
  revert s. induction p as [|c p IH]; intros s; simpl.
  - rewrite str_app_nil_l. split; congruence.
  - rewrite str_app_cons. destruct s as [|d s]; [done|].
    destruct (decide (c = d)) as [->|]; [rewrite IH|]; split; congruence.
Qed.

Lemma dot_star_here_Some lit s taken rest :
  (λ rest, ("", rest)) <$> Py.eat lit s = Some (taken, rest) →
  s = taken +:+ lit +:+ rest.
Proof.
  destruct (Py.eat lit s) as [r|] eqn:E; intros; simplify_eq/=.
  by apply eat_Some in E.
Qed.

Lemma dot_star_then_Some lit s taken rest :
  Re.dot_star_then lit s = Some (taken, rest) → s = taken +:+ lit +:+ rest.
Proof.
  revert taken rest. induction s as [|c s IH]; intros taken rest; simpl.
  - apply dot_star_here_Some.
  - destruct (decide _); [apply dot_star_here_Some|].
    destruct (Re.dot_star_then lit s) as [[t r]|] eqn:E; [|apply dot_star_here_Some].
    intros [= <- <-]. rewrite str_app_cons. f_equal. by apply IH.
Qed.

Lemma count_lstrip_with c p s : (Py.count c (Py.lstrip_with p s) ≤ Py.count c s)%nat.
Proof.
  induction s as [|d s IH]; [done|]. simpl. destruct (p d); simpl; lia.
Qed.

Lemma count_rstrip_with c p s : (Py.count c (Py.rstrip_with p s) ≤ Py.count c s)%nat.
Proof.
  induction s as [|d s IH]; [done|]. simpl.
  destruct (Py.rstrip_with p s); [destruct (p d)|]; simpl in *; lia.
Qed.

Lemma count_strip c s : (Py.count c (Py.strip s) ≤ Py.count c s)%nat.
Proof.
  unfold Py.strip. etrans; [apply count_rstrip_with|apply count_lstrip_with].
Qed.

(** A match of [UNUSED_MODULE_NAME_RE] needs two quotes. *)
Lemma match_unused_module_name_quotes s name :
  Re.match_unused_module_name s = Some name → (2 ≤ Py.count "'" s)%nat.
Proof.
  unfold Re.match_unused_module_name. intros H.
  destruct (Py.eat "'" s) as [rest|] eqn:E1; [|done].
  apply eat_Some in E1 as ->. simpl in H.
  destruct (Re.dot_star_then "'" rest) as [[n r]|] eqn:E2; [|done].
  apply dot_star_then_Some in E2 as ->.
  rewrite !count_app. simpl. lia.
Qed.

(** C6: the diagnostic [f.py:1: 'x' imported but unused] is parsed into
    the path, the line number as text, and the name; a line that does not
    split on the colon into exactly three fields raises; and a line of
    three fields whose third field holds fewer than two quotes, and so no
    quoted name, gives the path and the line number with no name. *)
Theorem parse_pyflake_unused_import_error_spec :
  parse_pyflake_unused_import_error "f.py:1: 'x' imported but unused"
    = Ok ("f.py", "1", Some "x")
  ∧ (∀ error_line, length (Py.split ":" error_line) ≠ 3%nat →
       parse_pyflake_unused_import_error error_line = Raise ValueError)
  ∧ (∀ error_line path line_num error,
       Py.split ":" error_line = [path; line_num; error] →
       (Py.count "'" error < 2)%nat →
       parse_pyflake_unused_import_error error_line = Ok (path, line_num, None)).
Proof.
  split_and!.
  - reflexivity.
  - intros error_line H. unfold parse_pyflake_unused_import_error.
    destruct (Py.split ":" error_line) as [|? [|? [|? [|]]]]; simpl in *; done.
  - intros error_line path line_num error Hsplit Hq.
    unfold parse_pyflake_unused_import_error. rewrite Hsplit.
    destruct (Re.match_unused_module_name (Py.strip error)) as [name|] eqn:E; [|done].
    apply match_unused_module_name_quotes in E.
    pose proof (count_strip "'" error). lia.
Qed.

(** C7: for a path that ends in [__init__.py], whatever the diagnostics
    and the commit flag, [remove_unused_imports_from_file] returns with
    the content of every file as it was and without having opened a file
    for reading or for writing; it only prints that the file is
    ignored. *)
Theorem init_file_is_skipped re commit file_path unused_imports w :
  Py.endswith "__init__.py" file_path = true →
  ∃ w', remove_unused_imports_from_file re commit file_path unused_imports w = Ok w'
        ∧ Fs.files w' = Fs.files w
        ∧ Fs.opened w' = Fs.opened w
        ∧ Fs.stdout w' = Fs.stdout w ++ ["ignoring __init__.py file: " +:+ file_path].
Proof.
  intros H. unfold remove_unused_imports_from_file. rewrite H.
  eexists. split; [reflexivity|]. done.
Qed.

(** ** [build_multiline_import] *)

Lemma build_multiline_import_block padding base_import imports :
  base_import ≠ "" →
  build_multiline_import padding base_import imports
  = Fs.writelines (block_lines padding base_import (sorted imports)).
Proof.
  intros Hb. unfold build_multiline_import, block_lines, Fs.writelines, Py.ln.
  rewrite decide_False by done. cbv zeta.
  rewrite (foldl_append (λ x, padding +:+ "    " +:+ x +:+ "," +:+ Py.nl)).
  rewrite concat_nil_cons, concat_nil_app.
  replace ((λ s, (padding +:+ "    " +:+ s +:+ ",") +:+ Py.nl) <$> sorted imports)
    with ((λ x, padding +:+ "    " +:+ x +:+ "," +:+ Py.nl) <$> sorted imports)
    by (apply list_fmap_ext; intros _ s _; by rewrite !str_app_assoc).
  simpl. by rewrite !str_app_assoc.
Qed.

Lemma block_lines_padding padding base_import imports :
  block_lines padding base_import imports
  = String.append padding <$> block_lines "" base_import imports.
Proof.
  unfold block_lines, Py.ln. rewrite fmap_cons, fmap_app, <- list_fmap_compose.
  simpl. rewrite !str_app_nil_l, !str_app_assoc. do 2 f_equal.
  apply list_fmap_ext. intros _ s _. simpl. by rewrite str_app_nil_l, !str_app_assoc.
Qed.

Lemma mem_concat c sep (l : list string) :
  Py.mem c sep = false → Forall (λ s, Py.mem c s = false) l →
  Py.mem c (String.concat sep l) = false.
Proof.
  intros Hsep. induction 1 as [|s l Hs Hl IH]; [done|]. simpl.
  destruct l; [done|]. rewrite !mem_app, Hs, Hsep. apply IH.
Qed.

(** C2: with no padding, the prefix [from p ] and the symbols a, c, b,
    [build_multiline_import] returns the opening line, one line per
    symbol in alphabetical order made of four spaces, the symbol and a
    comma, and the closing parenthesis; with a padding every line of that
    text is preceded by the padding; and with an empty prefix it returns
    the word import followed by the sorted symbols joined by a comma and
    a space, on one line: the only newline is the last character. *)
Theorem build_multiline_import_spec :
  build_multiline_import "" "from p " ["a"; "c"; "b"]
    = Py.ln "from p import (" +:+ Py.ln "    a," +:+ Py.ln "    b,"
      +:+ Py.ln "    c," +:+ Py.ln ")"
  ∧ build_multiline_import "    " "from p " ["a"; "c"; "b"]
    = Py.ln "    from p import (" +:+ Py.ln "        a," +:+ Py.ln "        b,"
      +:+ Py.ln "        c," +:+ Py.ln "    )"
  ∧ (∀ padding base_import imports, base_import ≠ "" →
       build_multiline_import padding base_import imports
       = Fs.writelines
           (String.append padding <$> block_lines "" base_import (sorted imports)))
  ∧ (∀ padding imports,
       build_multiline_import padding "" imports
       = Py.ln ("import " +:+ Py.join ", " (sorted imports)))
  ∧ (∀ padding imports,
       Forall (λ s, Py.mem "010" s = false) imports →
       Py.count "010" (build_multiline_import padding "" imports) = 1%nat).
Proof.
  split_and!.
  - reflexivity.
  - reflexivity.
  - intros padding base_import imports Hb.
    by rewrite build_multiline_import_block, block_lines_padding.
  - intros padding imports. unfold build_multiline_import, Py.ln.
    rewrite decide_True by done. by rewrite str_app_assoc.
  - intros padding imports Himports. unfold build_multiline_import.
    rewrite decide_True by done. rewrite !count_app.
    assert (Py.count "010" (Py.join ", " (sorted imports)) = 0%nat) as ->.
    { apply mem_count, mem_concat; [done|]. by rewrite sorted_Permutation. }
    reflexivity.
Qed.
(** ** Strings, continued *)

Lemma mem_lstrip_with c p s :
  p c = false → Py.mem c (Py.lstrip_with p s) = Py.mem c s.
Proof.
  intros Hc. induction s as [|d s IH]; [done|]. simpl.
  destruct (p d) eqn:Hd; [|done]. rewrite IH.
  destruct (decide (c = d)) as [->|]; [congruence|done].
Qed.

Lemma mem_rstrip_with c p s :
  p c = false → Py.mem c (Py.rstrip_with p s) = Py.mem c s.
Proof.
  intros Hc. induction s as [|d s IH]; [done|]. simpl.
  destruct (Py.rstrip_with p s) as [|e r] eqn:E.
  - simpl in IH. rewrite <- IH. destruct (p d) eqn:Hd; simpl.
    + destruct (decide (c = d)) as [->|]; [congruence|done].
    + done.
  - cbn [Py.mem]. by rewrite <- IH.
Qed.

Lemma mem_strip c s : Py.is_space c = false → Py.mem c (Py.strip s) = Py.mem c s.
Proof.
  intros Hc. unfold Py.strip. by rewrite mem_rstrip_with, mem_lstrip_with.
Qed.

Lemma contains_char c s : Py.contains (String c "") s = Py.mem c s.
Proof.
  induction s as [|d s IH]; [done|]. simpl. rewrite IH.
  destruct (ascii_dec c d) as [->|]; destruct (decide _); try done.
  by destruct s.
Qed.

(** Whether a line holds a backslash does not depend on the whitespace
    around it. *)
Lemma contains_escape_strip s :
  Py.contains ESCAPE_CHARACTER (Py.strip s) = Py.contains ESCAPE_CHARACTER s.
Proof. unfold ESCAPE_CHARACTER. rewrite !contains_char. by apply mem_strip. Qed.

Lemma lstrip_with_id p s :
  Py.all (λ c, negb (p c)) s = true → Py.lstrip_with p s = s.
Proof. destruct s as [|c s]; [done|]. simpl. by destruct (p c). Qed.

Lemma rstrip_with_id p s :
  Py.all (λ c, negb (p c)) s = true → Py.rstrip_with p s = s.
Proof.
  induction s as [|c s IH]; [done|]. simpl. intros [Hc Hs]%andb_prop.
  rewrite IH by done. destruct s; [|done]. by destruct (p c).
Qed.

(** Stripping commas from a text that holds none changes nothing. *)
Lemma strip_commas_absent s :
  Py.mem "," s = false → Py.strip_chars "," s = s.
Proof.
  intros H. unfold Py.strip_chars.
  assert (Py.all (λ c, negb (Py.mem c ",")) s = true) as Hall.
  { induction s as [|d s IH]; [done|]. simpl in *.
    destruct (decide ("," = d))%char as [|Hd]; [done|].
    rewrite IH by done. destruct (decide (d = ","))%char; [congruence|done]. }
  by rewrite lstrip_with_id, rstrip_with_id.
Qed.

(** ** Results *)

Lemma bind_Ok {A B} (f : A → result B) (a : A) : Ok a ≫= f = f a.
Proof. reflexivity. Qed.

Lemma bind_Raise {A B} (f : A → result B) (e : exn) : Raise e ≫= f = Raise e.
Proof. reflexivity. Qed.

(** ** Subscripts *)

Section getitem.
Context {A : Type}.
Implicit Types (l : list A) (i : Z).

Lemma getitem_cases l i :
    (∃ x, Py.getitem l i = Ok x) ∨ Py.getitem l i = Raise IndexError.
  Proof.
    unfold Py.getitem. destruct (Py.norm_index l i); [|by right].
    destruct (l !! _); simpl; eauto.
  Qed.

Lemma getitem_Ok_lt l i x : Py.getitem l i = Ok x → i < Py.len l.
  Proof.
    unfold Py.getitem, Py.norm_index. repeat case_decide; try done; lia.
  Qed.

Lemma getitem_nonneg l i :
    0 ≤ i → Py.getitem l i = from_option Ok (Raise IndexError) (l !! Z.to_nat i).
  Proof.
    intros Hi. unfold Py.getitem, Py.norm_index, Py.len.
    repeat case_decide; try done; try lia.
    rewrite lookup_ge_None_2; [done|lia].
  Qed.
End getitem.

(** ** The forward scans *)

(** The budget is never used up: every successful subscript brings the
    index closer to the end of the buffer. *)
Lemma group_multiline_loop_fuel fuel file_lines current_index group :
  (Z.to_nat (Py.len file_lines - current_index) < fuel)%nat →
  group_multiline_loop fuel file_lines current_index group ≠ OutOfFuel.
Proof.
  revert current_index group.
  induction fuel as [|fuel IH]; intros cur group Hfuel; [lia|]. simpl.
  destruct (Py.getitem file_lines cur) as [line| |] eqn:E; simpl; [|done|].
  - case_decide; [done|]. apply IH. apply getitem_Ok_lt in E. lia.
  - destruct (getitem_cases file_lines cur) as [[? ?]| ?]; congruence.
Qed.

Lemma group_escaped_loop_fuel fuel file_lines current_index group :
  (Z.to_nat (Py.len file_lines - current_index) < fuel)%nat →
  group_escaped_loop fuel file_lines current_index group ≠ OutOfFuel.
Proof.
  revert current_index group.
  induction fuel as [|fuel IH]; intros cur group Hfuel; [lia|]. simpl.
  destruct (Py.getitem file_lines cur) as [line| |] eqn:E; simpl; [|done|].
  - destruct (negb _); [done|]. apply IH. apply getitem_Ok_lt in E. lia.
  - destruct (getitem_cases file_lines cur) as [[? ?]| ?]; congruence.
Qed.

(** Hence both grouping functions end, with symbols or with an
    exception. *)
Lemma group_multiline_imports_ends start_index file_lines :
  group_multiline_imports start_index file_lines ≠ OutOfFuel.
Proof. apply group_multiline_loop_fuel. unfold scan_fuel. lia. Qed.

Lemma group_escaped_imports_ends start_index file_lines :
  group_escaped_imports start_index file_lines ≠ OutOfFuel.
Proof.
  unfold group_escaped_imports.
  destruct (getitem_cases file_lines start_index) as [[line E]|E]; rewrite E; [|done].
  rewrite bind_Ok.
  destruct (split_single_line_multi_imports (_clean_line line)) as [modules| |] eqn:E'.
  - rewrite bind_Ok. apply group_escaped_loop_fuel. unfold scan_fuel. lia.
  - done.
  - unfold split_single_line_multi_imports in E'.
    by destruct (Py.split "import" (_clean_line line)) as [|? [|? ?]].
Qed.

Lemma group_multiline_loop_scan fuel file_lines current_index group
    (symbol_lines : list string) closing :
  (length symbol_lines < fuel)%nat →
  (∀ (j : nat) l, symbol_lines !! j = Some l →
     Py.getitem file_lines (current_index + Z.of_nat j) = Ok l ∧ Py.strip l ≠ ")") →
  Py.getitem file_lines (current_index + Z.of_nat (length symbol_lines)) = Ok closing →
  Py.strip closing = ")" →
  group_multiline_loop fuel file_lines current_index group
  = Ok (group ++ (multiline_symbol <$> symbol_lines),
        current_index + Z.of_nat (length symbol_lines)).
Proof.
  revert fuel current_index group.
  induction symbol_lines as [|l ls IH]; intros fuel cur group Hfuel Hls Hclosing Hstrip;
    (destruct fuel as [|fuel]; [simpl in Hfuel; lia|]); simpl in *.
  - rewrite Z.add_0_r in *. rewrite Hclosing. simpl.
    rewrite decide_True by done. by rewrite app_nil_r.
  - destruct (Hls 0%nat l eq_refl) as [Hl Hne]. rewrite Z.add_0_r in Hl.
    rewrite Hl. simpl. rewrite decide_False by done.
    rewrite (IH fuel (cur + 1) _).
    + rewrite <- (assoc_L (++)). do 2 f_equal. lia.
    + lia.
    + intros j l' Hj. replace (cur + 1 + Z.of_nat j) with (cur + Z.of_nat (S j)) by lia.
      by apply Hls.
    + rewrite <- Hclosing. f_equal. lia.
    + done.
Qed.


Lemma group_multiline_loop_unterminated fuel file_lines current_index group :
  (Z.to_nat (Py.len file_lines - current_index) < fuel)%nat →
  (∀ k l, current_index ≤ k → Py.getitem file_lines k = Ok l → Py.strip l ≠ ")") →
  group_multiline_loop fuel file_lines current_index group = Raise IndexError.
Proof.
  revert current_index group.
  induction fuel as [|fuel IH]; intros cur group Hfuel Hno; [lia|]. simpl.
  destruct (getitem_cases file_lines cur) as [[line E]|E]; rewrite E; [|done].
  simpl. rewrite decide_False by (by apply (Hno cur); [lia|]).
  apply IH; [apply getitem_Ok_lt in E; lia|].
  intros k l Hk. apply Hno. lia.
Qed.

Lemma group_escaped_loop_unterminated fuel file_lines current_index group :
  (Z.to_nat (Py.len file_lines - current_index) < fuel)%nat →
  (∀ k l, current_index ≤ k → Py.getitem file_lines k = Ok l →
          Py.contains ESCAPE_CHARACTER l = true) →
  group_escaped_loop fuel file_lines current_index group = Raise IndexError.
Proof.
  revert current_index group.
  induction fuel as [|fuel IH]; intros cur group Hfuel Hall; [lia|]. simpl.
  destruct (getitem_cases file_lines cur) as [[line E]|E]; rewrite E; [|done].
  simpl. rewrite contains_escape_strip, (Hall cur line) by (done || lia). simpl.
  apply IH; [apply getitem_Ok_lt in E; lia|].
  intros k l Hk. apply Hall. lia.
Qed.

Lemma split_single_line_multi_imports_cases line :
  (∃ modules, split_single_line_multi_imports line = Ok modules)
  ∨ split_single_line_multi_imports line = Raise IndexError.
Proof.
  unfold split_single_line_multi_imports.
  destruct (Py.split "import" line) as [|? [|? ?]]; simpl; eauto.
Qed.

(** C4: [group_multiline_imports] reads the lines after the start index
    one by one, takes from each its content without the whitespace and
    the commas around it, and stops at the first line whose content
    without the whitespace around it is the closing parenthesis: the index
    of that line is the end index and the line gives no symbol.  On the
    buffer of the example, from index 1, the result is the symbols a and b
    and the end index 4; a line without a comma gives its stripped content
    as it is, and a statement of one symbol without a comma is read
    correctly. *)
Theorem group_multiline_imports_spec :
  (∀ start_index file_lines (symbol_lines : list string) closing,
     (∀ (j : nat) l, symbol_lines !! j = Some l →
        Py.getitem file_lines (start_index + 1 + Z.of_nat j) = Ok l ∧ Py.strip l ≠ ")") →
     Py.getitem file_lines (start_index + 1 + Z.of_nat (length symbol_lines)) = Ok closing →
     Py.strip closing = ")" →
     group_multiline_imports start_index file_lines
     = Ok (multiline_symbol <$> symbol_lines,
           start_index + 1 + Z.of_nat (length symbol_lines)))
  ∧ group_multiline_imports 1 example_multiline = Ok (["a"; "b"], 4)
  ∧ (∀ line, Py.mem "," (Py.strip line) = false →
       multiline_symbol line = Py.strip line)
  ∧ group_multiline_imports 0 [Py.ln "from p import ("; Py.ln "   a"; Py.ln ")"]
    = Ok (["a"], 2).
Proof.
  split_and!; [|reflexivity| |reflexivity].
  - intros start_index file_lines symbol_lines closing Hls Hclosing Hstrip.
    unfold group_multiline_imports.
    rewrite (group_multiline_loop_scan _ _ _ _ symbol_lines closing); try done.
    apply getitem_Ok_lt in Hclosing. unfold scan_fuel. lia.
  - intros line H. by apply strip_commas_absent.
Qed.


(** C8: when no line after the start index is a closing parenthesis,
    [group_multiline_imports] raises [IndexError], and when every line
    after the start index holds a backslash, [group_escaped_imports]
    raises [IndexError]: the scans stop at nothing but their terminator,
    run past the end of the buffer and return no result. *)
Theorem unterminated_scan_raises :
  (∀ start_index file_lines,
     (∀ k l, start_index < k → Py.getitem file_lines k = Ok l →
             Py.strip l ≠ ")") →
     group_multiline_imports start_index file_lines = Raise IndexError)
  ∧ (∀ start_index file_lines,
       (∀ k l, start_index < k → Py.getitem file_lines k = Ok l →
               Py.contains ESCAPE_CHARACTER l = true) →
       group_escaped_imports start_index file_lines = Raise IndexError).
Proof.
  split; intros start_index file_lines H.
  - apply group_multiline_loop_unterminated; [unfold scan_fuel; lia|].
    intros k l Hk. apply H. lia.
  - unfold group_escaped_imports.
    destruct (getitem_cases file_lines start_index) as [[line E]|E]; rewrite E; [|done].
    rewrite bind_Ok.
    destruct (split_single_line_multi_imports_cases (_clean_line line))
      as [[modules E']|E']; rewrite E'; [|done].
    rewrite bind_Ok. apply group_escaped_loop_unterminated; [unfold scan_fuel; lia|].
    intros k l Hk. apply H. lia.
Qed.

(** ** The edit handlers *)


Lemma bind_Ok_inv {A B} (m : result A) (f : A → result B) b :
  m ≫= f = Ok b → ∃ a, m = Ok a ∧ f a = Ok b.
Proof. destruct m; simpl; [eauto|done..]. Qed.

Section slices.
Context {A : Type}.
Implicit Types (l : list A) (i : Z).

Lemma clamp_index_nonneg l i :
    0 ≤ i → Py.clamp_index l i = (Z.to_nat i `min` length l)%nat.
  Proof. intros Hi. unfold Py.clamp_index, Py.len. case_decide; lia. Qed.

Lemma slice_to_nonneg l i : 0 ≤ i → Py.slice_to l i = take (Z.to_nat i) l.
  Proof.
    intros Hi. unfold Py.slice_to. rewrite clamp_index_nonneg by done.
    destruct (decide (Z.to_nat i ≤ length l)%nat).
    - by rewrite Nat.min_l.
    - rewrite Nat.min_r by lia. by rewrite !take_ge by lia.
  Qed.

Lemma slice_from_nonneg l i : 0 ≤ i → Py.slice_from l i = drop (Z.to_nat i) l.
  Proof.
    intros Hi. unfold Py.slice_from. rewrite clamp_index_nonneg by done.
    destruct (decide (Z.to_nat i ≤ length l)%nat).
    - by rewrite Nat.min_l.
    - rewrite Nat.min_r by lia. by rewrite !drop_ge by lia.
  Qed.

Lemma insert_nonneg l i x :
    0 ≤ i → Py.insert l i x = take (Z.to_nat i) l ++ x :: drop (Z.to_nat i) l.
  Proof.
    intros Hi. unfold Py.insert.
    change (take (Py.clamp_index l i) l) with (Py.slice_to l i).
    change (drop (Py.clamp_index l i) l) with (Py.slice_from l i).
    by rewrite slice_to_nonneg, slice_from_nonneg.
  Qed.

Lemma pop_nonneg l i l' :
    0 ≤ i → Py.pop l i = Ok l' →
    i < Py.len l ∧ l' = take (Z.to_nat i) l ++ drop (S (Z.to_nat i)) l.
  Proof.
    intros Hi. unfold Py.pop, Py.norm_index.
    repeat case_decide; try done; try lia. intros [= <-]. split; [lia|done].
  Qed.

  (** Cutting a span out and putting one element in its place. *)
Lemma insert_after_cut l (i e : nat) x :
    (i ≤ length l)%nat →
    Py.insert (take i l ++ drop (S e) l) (Z.of_nat i) x
    = take i l ++ [x] ++ drop (S e) l.
  Proof.
    intros Hi. rewrite insert_nonneg by lia. rewrite Nat2Z.id.
    rewrite take_app_length', drop_app_length'; [done|..];
      by rewrite length_take, Nat.min_l.
  Qed.
End slices.

(** The scans return an index they have read. *)
Lemma group_multiline_loop_end fuel file_lines current_index group symbols end_index :
  group_multiline_loop fuel file_lines current_index group = Ok (symbols, end_index) →
  current_index ≤ end_index < Py.len file_lines.
Proof.
  revert current_index group.
  induction fuel as [|fuel IH]; intros cur group; [done|]. simpl.
  intros (line & E & H)%bind_Ok_inv. apply getitem_Ok_lt in E.
  case_decide; [simplify_eq; lia|]. apply IH in H. lia.
Qed.

Lemma group_escaped_loop_end fuel file_lines current_index group symbols end_index :
  group_escaped_loop fuel file_lines current_index group = Ok (symbols, end_index) →
  current_index ≤ end_index < Py.len file_lines.
Proof.
  revert current_index group.
  induction fuel as [|fuel IH]; intros cur group; [done|]. simpl.
  intros (line & E & H)%bind_Ok_inv. apply getitem_Ok_lt in E.
  destruct (negb _); [simplify_eq; lia|]. apply IH in H. lia.
Qed.

Lemma group_multiline_imports_end start_index file_lines symbols end_index :
  group_multiline_imports start_index file_lines = Ok (symbols, end_index) →
  start_index < end_index < Py.len file_lines.
Proof. intros H%group_multiline_loop_end. lia. Qed.

Lemma group_escaped_imports_end start_index file_lines symbols end_index :
  group_escaped_imports start_index file_lines = Ok (symbols, end_index) →
  start_index < end_index < Py.len file_lines.
Proof.
  unfold group_escaped_imports.
  intros (first & _ & (modules & _ & H%group_escaped_loop_end)%bind_Ok_inv)%bind_Ok_inv.
  lia.
Qed.

(** What cutting a span and inserting at most one line does to the
    length. *)
Lemma len_cut (file_lines replacement : list string) (i e : nat) :
  (i ≤ e < length file_lines)%nat →
  Py.len (take i file_lines ++ replacement ++ drop (S e) file_lines)
  = Py.len file_lines - (Z.of_nat e - Z.of_nat i + 1) + Py.len replacement.
Proof.
  intros H. unfold Py.len. rewrite !length_app, length_take, length_drop. lia.
Qed.

Lemma handle_single_line_imports_frame index line_adjustment file_lines
    line_adjustment' file_lines' :
  0 ≤ index →
  handle_single_line_imports index line_adjustment file_lines
    = Ok (line_adjustment', file_lines') →
  index < Py.len file_lines
  ∧ edits_span index index file_lines file_lines'
  ∧ line_adjustment' - line_adjustment = Py.len file_lines - Py.len file_lines'.
Proof.
  intros Hi (fl & [Hlt ->]%pop_nonneg & [= <- <-])%bind_Ok_inv; [|done].
  split; [done|]. split.
  - exists []. split; [simpl; lia|done].
  - pose proof (len_cut file_lines [] (Z.to_nat index) (Z.to_nat index)) as Hlen.
    simpl in Hlen. rewrite Hlen by (unfold Py.len in *; lia). unfold Py.len. simpl. lia.
Qed.

Lemma cut_span (file_lines : list string) (index end_index : Z) :
  0 ≤ index ≤ end_index →
  Py.slice_to file_lines index ++ Py.slice_from file_lines (end_index + 1)
  = take (Z.to_nat index) file_lines ++ drop (S (Z.to_nat end_index)) file_lines.
Proof.
  intros H. rewrite slice_to_nonneg, slice_from_nonneg by lia.
  do 2 f_equal. lia.
Qed.

Lemma insert_cut_span (file_lines : list string) (index end_index : Z) x :
  0 ≤ index ≤ end_index → end_index < Py.len file_lines →
  Py.insert (take (Z.to_nat index) file_lines
               ++ drop (S (Z.to_nat end_index)) file_lines) index x
  = take (Z.to_nat index) file_lines ++ [x]
      ++ drop (S (Z.to_nat end_index)) file_lines.
Proof.
  intros H Hlt. rewrite <- (Z2Nat.id index) at 2 by lia.
  apply insert_after_cut. unfold Py.len in Hlt. lia.
Qed.

(** The length lost by an edit of the span [index .. end_index]. *)
Lemma len_edit (file_lines replacement : list string) (index end_index : Z) :
  0 ≤ index ≤ end_index → end_index < Py.len file_lines →
  Py.len file_lines
  - Py.len (take (Z.to_nat index) file_lines ++ replacement
              ++ drop (S (Z.to_nat end_index)) file_lines)
  = end_index - index + 1 - Py.len replacement.
Proof.
  intros H Hlt. rewrite len_cut by (unfold Py.len in Hlt; lia). lia.
Qed.

Lemma handle_single_line_multiple_imports_frame unused_imports index
    unused_import_line line_adjustment file_lines line_adjustment' file_lines' :
  0 ≤ index →
  handle_single_line_multiple_imports unused_imports index unused_import_line
    line_adjustment file_lines = Ok (line_adjustment', file_lines') →
  ∃ end_index,
    (if Py.contains ESCAPE_CHARACTER unused_import_line
     then ∃ symbols, group_escaped_imports index file_lines = Ok (symbols, end_index)
     else end_index = index)
    ∧ index ≤ end_index < Py.len file_lines
    ∧ edits_span index end_index file_lines file_lines'
    ∧ line_adjustment' - line_adjustment
      = Py.len file_lines - Py.len file_lines'.
Proof.
  intros Hi H. unfold handle_single_line_multiple_imports in H.
  destruct (Py.contains ESCAPE_CHARACTER unused_import_line).
  - destruct (group_escaped_imports index file_lines) as [[symbols e]| |] eqn:E;
      cbn [mbind result_bind] in H; [|done..].
    pose proof (group_escaped_imports_end _ _ _ _ E) as He.
    exists e. split; [by exists symbols|]. split; [lia|].
    rewrite cut_span in H by lia.
    destruct (get_modules_to_keep symbols unused_imports) as [|only others].
    + injection H as <- <-. split.
      * exists []. split; [simpl; lia|done].
      * pose proof (len_edit file_lines [] index e) as Hlen. simpl in Hlen.
        unfold Py.len in *. simpl in *. lia.
    + destruct (base_import_groups unused_import_line) as [[padding base]| |];
        cbn [mbind result_bind] in H; [|done..].
      injection H as <- <-. rewrite insert_cut_span by lia. split.
      * eexists [_]. split; [simpl; lia|done].
      * rewrite len_edit by lia. unfold Py.len. simpl. lia.
  - destruct (split_single_line_multi_imports unused_import_line) as [symbols| |];
      cbn [mbind result_bind] in H; [|done..].
    destruct (Py.pop file_lines index) as [fl| |] eqn:E;
      cbn [mbind result_bind] in H; [|done..].
    apply pop_nonneg in E as [Hlt ->]; [|done].
    exists index. split; [done|]. split; [lia|].
    destruct (get_modules_to_keep symbols unused_imports) as [|only others].
    + injection H as <- <-. split.
      * exists []. split; [simpl; lia|done].
      * pose proof (len_edit file_lines [] index index) as Hlen. simpl in Hlen.
        unfold Py.len in *. simpl in *. lia.
    + destruct (base_import_groups unused_import_line) as [[padding base]| |];
        cbn [mbind result_bind] in H; [|done..].
      injection H as <- <-. rewrite insert_cut_span by lia. split.
      * eexists [_]. split; [simpl; lia|done].
      * rewrite len_edit by lia. unfold Py.len. simpl. lia.
Qed.

Lemma handle_multiline_imports_frame unused_imports index
    unused_import_line line_adjustment file_lines line_adjustment' file_lines' :
  0 ≤ index →
  handle_multiline_imports unused_imports index unused_import_line
    line_adjustment file_lines = Ok (line_adjustment', file_lines') →
  ∃ end_index symbols,
    group_multiline_imports index file_lines = Ok (symbols, end_index)
    ∧ index < end_index < Py.len file_lines
    ∧ edits_span index end_index file_lines file_lines'
    ∧ line_adjustment' - line_adjustment
      = Py.len file_lines - Py.len file_lines'.
Proof.
  intros Hi H. unfold handle_multiline_imports in H.
  destruct (group_multiline_imports index file_lines) as [[symbols e]| |] eqn:E;
    cbn [mbind result_bind] in H; [|done..].
  pose proof (group_multiline_imports_end _ _ _ _ E) as He.
  exists e, symbols. split; [done|]. split; [done|].
  rewrite cut_span in H by lia.
  destruct (get_modules_to_keep symbols unused_imports) as [|only [|another others]].
  - cbn [mbind result_bind] in H. injection H as <- <-. split.
    + exists []. split; [simpl; lia|done].
    + lia.
  - cbn [mbind result_bind] in H. injection H as <- <-.
    rewrite insert_cut_span by lia. split.
    + eexists [_]. split; [simpl; lia|done].
    + lia.
  - destruct (base_import_groups unused_import_line) as [[padding base]| |];
      cbn [mbind result_bind] in H; [|done..].
    injection H as <- <-. rewrite insert_cut_span by lia. split.
    + eexists [_]. split; [simpl; lia|done].
    + lia.
Qed.


Section pop_insert_len.
Context {A : Type}.
Implicit Types (l : list A) (i : Z).

Lemma len_insert l i x : Py.len (Py.insert l i x) = Py.len l + 1.
  Proof.
    unfold Py.insert, Py.len. rewrite length_app. simpl.
    rewrite length_take, length_drop. lia.
  Qed.

Lemma len_pop l i l' : Py.pop l i = Ok l' → Py.len l' = Py.len l - 1.
  Proof.
    unfold Py.pop, Py.norm_index, Py.len.
    repeat case_decide; try done; intros [= <-];
      rewrite length_app, length_take, length_drop; lia.
  Qed.
End pop_insert_len.

Lemma getitem_lookup (file_lines : list string) index line :
  0 ≤ index → Py.getitem file_lines index = Ok line →
  file_lines !! Z.to_nat index = Some line.
Proof.
  intros Hi. rewrite getitem_nonneg by done.
  destruct (file_lines !! Z.to_nat index); simpl; congruence.
Qed.

Section orchestrator_facts.
Variable re_match_single_import : string → string → result bool.
Variable by_line : gmap Z (list (option string)).

Local Abbreviation apply_edit := (apply_edit re_match_single_import by_line).

  (** An edit at a position of the buffer changes the span of the
      statement found there, and nothing else; the adjustment grows by
      what the buffer loses. *)
Lemma apply_edit_frame line_adjustment file_lines line_num
      line_adjustment' file_lines' :
    0 ≤ line_num - 1 - line_adjustment →
    apply_edit (line_adjustment, file_lines) line_num
      = Ok (line_adjustment', file_lines') →
    ∃ end_index,
      line_num - 1 - line_adjustment ≤ end_index < Py.len file_lines
      ∧ edits_span (line_num - 1 - line_adjustment) end_index file_lines file_lines'
      ∧ line_adjustment' - line_adjustment
        = Py.len file_lines - Py.len file_lines'.
  Proof.
    intros Hi H. unfold RemoveUnusedImports.apply_edit in H.
    set (index := line_num - 1 - line_adjustment) in *.
    destruct (Py.getitem file_lines index) as [line| |] eqn:E;
      cbn [mbind result_bind] in H; [|done..].
    case_decide.
    { apply handle_single_line_multiple_imports_frame in H
        as (e & _ & ? & ? & ?); [|done]. by exists e. }
    destruct (Py.endswith _ line).
    { apply handle_multiline_imports_frame in H
        as (e & ? & _ & ? & ? & ?); [|done]. exists e. split; [lia|done]. }
    destruct (head _) as [first|]; cbn [from_option mbind result_bind] in H; [|done].
    destruct (re_match_single_import _ _) as [[]| |];
      cbn [mbind result_bind] in H; [| |done..].
    - apply handle_single_line_imports_frame in H as (? & ? & ?); [|done].
      exists index. split; [lia|done].
    - injection H as <- <-. exists index.
      pose proof (getitem_Ok_lt _ _ _ E). split; [lia|]. split; [|lia].
      exists [line]. split; [simpl; lia|].
      symmetry. apply take_drop_middle. by apply getitem_lookup.
  Qed.

  (** The count alone holds in more cases: only the backslash branch
      computes the adjustment from the indices. *)
Lemma apply_edit_delta line_adjustment file_lines line_num
      line_adjustment' file_lines' :
    (0 ≤ line_num - 1 - line_adjustment
     ∨ ∀ line, Py.getitem file_lines (line_num - 1 - line_adjustment) = Ok line →
               Py.contains ESCAPE_CHARACTER line = false) →
    apply_edit (line_adjustment, file_lines) line_num
      = Ok (line_adjustment', file_lines') →
    line_adjustment' - line_adjustment = Py.len file_lines - Py.len file_lines'.
  Proof.
    intros [Hi|Hno] H.
    { apply apply_edit_frame in H as (e & _ & _ & ?); done. }
    unfold RemoveUnusedImports.apply_edit in H.
    set (index := line_num - 1 - line_adjustment) in *.
    destruct (Py.getitem file_lines index) as [line| |] eqn:E;
      cbn [mbind result_bind] in H; [|done..].
    specialize (Hno line eq_refl).
    case_decide.
    { unfold handle_single_line_multiple_imports in H. rewrite Hno in H.
      destruct (split_single_line_multi_imports line) as [symbols| |];
        cbn [mbind result_bind] in H; [|done..].
      destruct (Py.pop file_lines index) as [fl| |] eqn:Epop;
        cbn [mbind result_bind] in H; [|done..].
      apply len_pop in Epop.
      destruct (get_modules_to_keep symbols _) as [|only others].
      - injection H as <- <-. lia.
      - destruct (base_import_groups line) as [[padding base]| |];
          cbn [mbind result_bind] in H; [|done..].
        injection H as <- <-. rewrite len_insert. lia. }
    destruct (Py.endswith _ line).
    { unfold handle_multiline_imports in H.
      destruct (group_multiline_imports index file_lines) as [[symbols e]| |];
        cbn [mbind result_bind] in H; [|done..].
      destruct (get_modules_to_keep symbols _) as [|only [|another others]];
        cbn [mbind result_bind] in H.
      - injection H as <- <-. lia.
      - injection H as <- <-. lia.
      - destruct (base_import_groups line) as [[padding base]| |];
          cbn [mbind result_bind] in H; [|done..].
        injection H as <- <-. lia. }
    destruct (head _) as [first|]; cbn [from_option mbind result_bind] in H; [|done].
    destruct (re_match_single_import _ _) as [[]| |];
      cbn [mbind result_bind] in H; [| |done..].
    - unfold handle_single_line_imports in H.
      destruct (Py.pop file_lines index) as [fl| |] eqn:Epop;
        cbn [mbind result_bind] in H; [|done..].
      apply len_pop in Epop. injection H as <- <-. lia.
    - injection H as <- <-. lia.
  Qed.
End orchestrator_facts.

Lemma aligned_start original : aligned original (-1) 0 original.
Proof. split; [lia|]. split; [lia|]. intros k _. f_equal. lia. Qed.

Lemma aligned_step original watermark line_adjustment file_lines
    index end_index line_adjustment' file_lines' :
  aligned original watermark line_adjustment file_lines →
  0 ≤ index ≤ end_index → end_index < Py.len file_lines →
  watermark ≤ end_index + line_adjustment →
  edits_span index end_index file_lines file_lines' →
  line_adjustment' - line_adjustment = Py.len file_lines - Py.len file_lines' →
  aligned original (end_index + line_adjustment) line_adjustment' file_lines'.
Proof.
  intros (Hla & Hbound & Hlines) Hi He Hw (replacement & Hrepl & ->) Hdelta.
  pose proof (len_edit file_lines replacement index end_index Hi He) as Hlen.
  assert (Py.len replacement ≤ 1) by (unfold Py.len; lia).
  assert (0 ≤ Py.len replacement) by (unfold Py.len; lia).
  split; [lia|]. split; [lia|].
  intros k Hk. rewrite <- Hlines by lia.
  rewrite !getitem_nonneg by lia. f_equal.
  set (m := Z.to_nat (k - line_adjustment - end_index - 1)).
  replace (Z.to_nat (k - line_adjustment'))
    with (length (take (Z.to_nat index) file_lines)
          + (length replacement + m))%nat.
  - rewrite lookup_app_r by lia. rewrite lookup_app_r by lia.
    rewrite lookup_drop. f_equal. lia.
  - rewrite length_take. unfold Py.len in *. lia.
Qed.

(** ** The order of the edits *)

Lemma sorted_keys_spec (by_line : gmap Z (list (option string))) :
  StronglySorted Z.le (sorted_keys by_line)
  ∧ NoDup (sorted_keys by_line)
  ∧ ∀ n, n ∈ sorted_keys by_line ↔ is_Some (by_line !! n).
Proof.
  unfold sorted_keys. split_and!.
  - apply (StronglySorted_merge_sort Z.le).
  - rewrite merge_sort_Permutation. apply NoDup_elements.
  - intros n. by rewrite merge_sort_Permutation, elem_of_elements, elem_of_dom.
Qed.

(** [pop] removes the element the subscript denotes, also when the
    subscript counts from the end. *)
Lemma handle_single_line_imports_any_index index line_adjustment file_lines
    line_adjustment' file_lines' :
  handle_single_line_imports index line_adjustment file_lines
    = Ok (line_adjustment', file_lines') →
  ∃ position : nat,
    Py.norm_index file_lines index = Some position
    ∧ (position < length file_lines)%nat
    ∧ file_lines' = take position file_lines ++ drop (S position) file_lines.
Proof.
  unfold handle_single_line_imports, Py.pop. intros H.
  destruct (Py.norm_index file_lines index) as [position|] eqn:E;
    cbn [mbind result_bind] in H; [|done].
  injection H as _ <-. exists position. split; [done|]. split; [|done].
  unfold Py.norm_index, Py.len in E.
  repeat case_decide; try done; injection E as <-; lia.
Qed.

(** C10, as amended: [handle_single_line_imports] deletes the line its
    index denotes and nothing else, for every index the list accepts,
    counted from the start or, when negative, from the end.  For a start
    index that is not negative ([0 ≤ index]), each of the three handlers
    gives back the buffer with the lines from the start index to the
    statement's end index replaced by at most one line: the lines before
    the start and after the end are kept, in their order.  The end index
    is the start index for a statement on one line and the index found
    by the grouping function otherwise. *)
Theorem handlers_edit_only_their_span unused_imports index unused_import_line
    line_adjustment file_lines line_adjustment' file_lines' :
  (handle_single_line_imports index line_adjustment file_lines
     = Ok (line_adjustment', file_lines') →
   ∃ position : nat,
     Py.norm_index file_lines index = Some position
     ∧ (position < length file_lines)%nat
     ∧ file_lines' = take position file_lines ++ drop (S position) file_lines)
  ∧ (0 ≤ index →
     (handle_single_line_imports index line_adjustment file_lines
        = Ok (line_adjustment', file_lines') →
      index < Py.len file_lines
      ∧ edits_span index index file_lines file_lines')
     ∧ (handle_single_line_multiple_imports unused_imports index unused_import_line
          line_adjustment file_lines = Ok (line_adjustment', file_lines') →
        ∃ end_index,
          (if Py.contains ESCAPE_CHARACTER unused_import_line
           then ∃ symbols,
                  group_escaped_imports index file_lines = Ok (symbols, end_index)
           else end_index = index)
          ∧ index ≤ end_index < Py.len file_lines
          ∧ edits_span index end_index file_lines file_lines')
     ∧ (handle_multiline_imports unused_imports index unused_import_line
          line_adjustment file_lines = Ok (line_adjustment', file_lines') →
        ∃ end_index symbols,
          group_multiline_imports index file_lines = Ok (symbols, end_index)
          ∧ index < end_index < Py.len file_lines
          ∧ edits_span index end_index file_lines file_lines')).
Proof.
  split; [apply handle_single_line_imports_any_index|].
  intros Hi. split_and!; intros H.
  - apply handle_single_line_imports_frame in H as (? & ? & _); done.
  - apply handle_single_line_multiple_imports_frame in H
      as (e & ? & ? & ? & _); [|done]. by exists e.
  - apply handle_multiline_imports_frame in H
      as (e & symbols & ? & ? & ? & _); [|done]. by exists e, symbols.
Qed.

(** C1, as amended: the edits of one file are applied in ascending order
    of their line numbers; after every dispatched edit, except the edit
    of a backslash statement reached through a negative index, the
    adjustment has grown by what the buffer has lost; and as long as each
    statement lies after the spans edited before it, the index
    [line_num - 1 - line_adjustment] is a position of the buffer and
    holds the line that carried that number in the file as read. *)
Theorem line_adjustment_tracks_edits
    (re_match_single_import : string → string → result bool)
    (by_line : gmap Z (list (option string))) :
  (StronglySorted Z.le (sorted_keys by_line)
   ∧ NoDup (sorted_keys by_line)
   ∧ ∀ n, n ∈ sorted_keys by_line ↔ is_Some (by_line !! n))
  ∧ (∀ line_adjustment file_lines line_num line_adjustment' file_lines',
       (0 ≤ line_num - 1 - line_adjustment
        ∨ ∀ line,
            Py.getitem file_lines (line_num - 1 - line_adjustment) = Ok line →
            Py.contains ESCAPE_CHARACTER line = false) →
       apply_edit re_match_single_import by_line
         (line_adjustment, file_lines) line_num
         = Ok (line_adjustment', file_lines') →
       line_adjustment' - line_adjustment
       = Py.len file_lines - Py.len file_lines')
  ∧ (∀ original, aligned original (-1) 0 original)
  ∧ (∀ original watermark line_adjustment file_lines line_num,
       aligned original watermark line_adjustment file_lines →
       watermark < line_num - 1 →
       0 ≤ line_num - 1 - line_adjustment
       ∧ Py.getitem file_lines (line_num - 1 - line_adjustment)
         = Py.getitem original (line_num - 1)
       ∧ ∀ line_adjustment' file_lines',
           apply_edit re_match_single_import by_line
             (line_adjustment, file_lines) line_num
             = Ok (line_adjustment', file_lines') →
           ∃ end_index,
             line_num - 1 - line_adjustment ≤ end_index < Py.len file_lines
             ∧ edits_span (line_num - 1 - line_adjustment) end_index
                 file_lines file_lines'
             ∧ aligned original (end_index + line_adjustment)
                 line_adjustment' file_lines').
Proof.
  split_and!.
  - apply sorted_keys_spec.
  - apply sorted_keys_spec.
  - apply sorted_keys_spec.
  - intros *. apply apply_edit_delta.
  - apply aligned_start.
  - intros original watermark la fl n Hal Hw.
    pose proof Hal as (Hla & Hbound & Hlines).
    assert (0 ≤ n - 1 - la) as Hi by lia.
    split; [done|]. split; [by apply Hlines|].
    intros la' fl' H.
    apply apply_edit_frame in H as (e & He & Hspan & Hdelta); [|done].
    exists e. split; [done|]. split; [done|].
    by apply (aligned_step original watermark la fl (n - 1 - la) e); try lia.
Qed.

(** ** Stripping, in the shapes the rewriter produces *)

Section strip_facts.
Implicit Types (s t ws : string) (p : ascii → bool).

Lemma lstrip_with_length p s :
    (String.length (Py.lstrip_with p s) ≤ String.length s)%nat.
  Proof. induction s as [|c s IH]; [done|]. simpl. destruct (p c); simpl; lia. Qed.

Lemma rstrip_with_length p s :
    (String.length (Py.rstrip_with p s) ≤ String.length s)%nat.
  Proof.
    induction s as [|c s IH]; [done|]. simpl.
    destruct (Py.rstrip_with p s); [destruct (p c)|]; simpl in *; lia.
  Qed.

Lemma lstrip_with_same_length p s :
    String.length (Py.lstrip_with p s) = String.length s → Py.lstrip_with p s = s.
  Proof.
    destruct s as [|c s]; [done|]. simpl. destruct (p c); [|done].
    pose proof (lstrip_with_length p s). simpl. lia.
  Qed.

  (** A text that [strip] leaves alone is left alone by both halves. *)
Lemma strip_with_fixed p s :
    Py.rstrip_with p (Py.lstrip_with p s) = s →
    Py.lstrip_with p s = s ∧ Py.rstrip_with p s = s.
  Proof.
    intros H. assert (Py.lstrip_with p s = s) as Hl.
    { apply lstrip_with_same_length.
      pose proof (lstrip_with_length p s).
      pose proof (rstrip_with_length p (Py.lstrip_with p s)) as Hr.
      rewrite H in Hr. lia. }
    split; [done|]. by rewrite Hl in H.
  Qed.

Lemma lstrip_with_fixed_head p c s :
    Py.lstrip_with p (String c s) = String c s → p c = false.
  Proof.
    simpl. destruct (p c); [|done]. intros H.
    pose proof (lstrip_with_length p s) as Hlen. rewrite H in Hlen. simpl in Hlen. lia.
  Qed.

Lemma lstrip_with_app_all p ws t :
    Py.all p ws = true → Py.lstrip_with p (ws +:+ t) = Py.lstrip_with p t.
  Proof.
    induction ws as [|c ws IH]; [done|]. rewrite str_app_cons. simpl.
    intros [-> ?]%andb_prop. by apply IH.
  Qed.

Lemma lstrip_with_app_fixed_cons p c s t :
    Py.lstrip_with p (String c s) = String c s →
    Py.lstrip_with p (String c s +:+ t) = String c s +:+ t.
  Proof.
    intros Hc%lstrip_with_fixed_head. rewrite str_app_cons. simpl. by rewrite Hc.
  Qed.

Lemma lstrip_with_app_fixed p s t :
    Py.lstrip_with p s = s → Py.lstrip_with p t = t →
    Py.lstrip_with p (s +:+ t) = s +:+ t.
  Proof.
    destruct s as [|c s]; [done|]. intros H _. by apply lstrip_with_app_fixed_cons.
  Qed.

Lemma rstrip_with_app_keep p t r :
    Py.rstrip_with p r ≠ "" →
    Py.rstrip_with p (t +:+ r) = t +:+ Py.rstrip_with p r.
  Proof.
    intros Hr. induction t as [|c t IH]; [done|]. rewrite !str_app_cons. simpl.
    rewrite IH. destruct (Py.rstrip_with p r); [done|]. by destruct t.
  Qed.

Lemma rstrip_with_all p r : Py.all p r = true → Py.rstrip_with p r = "".
  Proof.
    induction r as [|c r IH]; [done|]. simpl. intros [-> ?]%andb_prop.
    by rewrite IH.
  Qed.

Lemma rstrip_with_app_all p t r :
    Py.all p r = true → Py.rstrip_with p (t +:+ r) = Py.rstrip_with p t.
  Proof.
    intros Hr. induction t as [|c t IH].
    - rewrite str_app_nil_l. by apply rstrip_with_all.
    - rewrite str_app_cons. simpl. by rewrite IH.
  Qed.
End strip_facts.


(** A symbol line of the rewriter's output gives its symbol back. *)
Lemma multiline_symbol_block_line padding s :
  Py.all Py.is_space padding = true → plain_symbol s →
  Py.strip (Py.ln (padding +:+ "    " +:+ s +:+ ",")) = s +:+ ","
  ∧ multiline_symbol (Py.ln (padding +:+ "    " +:+ s +:+ ",")) = s.
Proof.
  intros Hpad [[Hl _]%strip_with_fixed [Hcl Hcr]%strip_with_fixed].
  assert (Py.strip (Py.ln (padding +:+ "    " +:+ s +:+ ",")) = s +:+ ",") as Hstrip.
  { unfold Py.strip, Py.ln. rewrite !str_app_assoc.
    rewrite lstrip_with_app_all by done.
    rewrite (lstrip_with_app_all _ "    ") by done.
    rewrite lstrip_with_app_fixed by done.
    by rewrite rstrip_with_app_keep. }
  split; [done|]. unfold multiline_symbol. rewrite Hstrip. unfold Py.strip_chars.
  destruct s as [|c s]; [done|].
  rewrite lstrip_with_app_fixed_cons by done.
  rewrite rstrip_with_app_all by done. done.
Qed.

Lemma strip_closing_line padding :
  Py.all Py.is_space padding = true → Py.strip (Py.ln (padding +:+ ")")) = ")".
Proof.
  intros Hpad. unfold Py.strip, Py.ln. rewrite str_app_assoc.
  by rewrite lstrip_with_app_all.
Qed.

(** ** [BASE_IMPORT_RE] on the opening line of the rewriter's output *)

Lemma spaces_app padding rest :
  Py.all Py.is_space padding = true → Py.lstrip_with Py.is_space rest = rest →
  Re.spaces (padding +:+ rest) = (padding, rest).
Proof.
  intros Hpad Hrest. induction padding as [|c ws IH].
  - rewrite str_app_nil_l. destruct rest as [|c rest]; [done|].
    apply lstrip_with_fixed_head in Hrest. simpl. by rewrite Hrest.
  - rewrite str_app_cons. simpl in *. apply andb_prop in Hpad as [-> Hws].
    by rewrite IH.
Qed.

Lemma eat_app lit rest : Py.eat lit (lit +:+ rest) = Some rest.
Proof. by apply eat_Some. Qed.

(** The star gives back as little as it can: with no newline before it,
    the last [import ] of the opening line is the one found. *)
Lemma dot_star_then_import module_part :
  Py.mem "010" module_part = false →
  Re.dot_star_then "import " (module_part +:+ Py.ln "import (")
  = Some (module_part, Py.ln "(").
Proof.
  intros Hnl. induction module_part as [|c x IH]; [done|].
  rewrite str_app_cons. simpl in Hnl.
  destruct (decide ("010"%char = c)) as [|Hc]; [done|].
  cbn [Re.dot_star_then]. rewrite decide_False by congruence.
  by rewrite IH.
Qed.

Lemma base_import_groups_opening padding module_part :
  Py.all Py.is_space padding = true → Py.mem "010" module_part = false →
  base_import_groups (Py.ln (padding +:+ ("from " +:+ module_part) +:+ "import ("))
  = Ok (padding, "from " +:+ module_part).
Proof.
  intros Hpad Hnl. unfold base_import_groups, Re.match_base_import, Py.ln.
  rewrite !str_app_assoc. rewrite spaces_app by done.
  rewrite eat_app. cbn [mbind option_bind].
  change ("import (" +:+ Py.nl) with (Py.ln "import (").
  by rewrite dot_star_then_import.
Qed.

(** ** The star of the patterns *)

Lemma eat_prefix lit s : Py.eat lit s = None ↔ String.prefix lit s = false.
Proof.
  revert s. induction lit as [|c lit IH]; intros s; simpl.
  { by destruct s. }
  destruct s as [|d s]; [done|]. simpl.
  destruct (decide (c = d)) as [Heq|Hne], (ascii_dec c d) as [?|?];
    try done; apply IH.
Qed.

Lemma dot_star_then_None lit s :
  Py.contains lit s = false → Re.dot_star_then lit s = None.
Proof.
  induction s as [|c s IH]; cbn [Py.contains Re.dot_star_then].
  - intros [H _]%orb_false_elim. apply eat_prefix in H. by rewrite H.
  - intros [H Hrest]%orb_false_elim. apply eat_prefix in H. rewrite H. simpl.
    case_decide; [done|]. by rewrite IH.
Qed.

Lemma dot_star_then_cons_None lit c s :
  c ≠ "010"%char → Re.dot_star_then lit s = None →
  Re.dot_star_then lit (String c s)
  = (λ rest, ("", rest)) <$> Py.eat lit (String c s).
Proof.
  intros Hc Hs. cbn [Re.dot_star_then]. rewrite decide_False by done.
  by rewrite Hs.
Qed.

(** With no newline before it and no later [import ], the [import ] that
    ends the prefix is the one the star stops at. *)
Lemma dot_star_then_last_import module_part rest :
  Py.mem "010" module_part = false →
  Py.contains "import " rest = false →
  Re.dot_star_then "import " (module_part +:+ "import " +:+ rest)
  = Some (module_part, rest).
Proof.
  intros Hnl Hrest. induction module_part as [|c x IH].
  - rewrite str_app_nil_l, !str_app_cons, str_app_nil_l.
    rewrite dot_star_then_cons_None; [reflexivity|done|].
    apply dot_star_then_None. simpl. exact Hrest.
  - rewrite str_app_cons. simpl in Hnl.
    destruct (decide ("010"%char = c)) as [|Hc]; [done|].
    cbn [Re.dot_star_then]. rewrite decide_False by congruence.
    by rewrite IH.
Qed.

(** ** Rewriting with nothing to remove *)

Lemma get_modules_to_keep_none (symbols : list string) :
  StronglySorted String.le symbols → NoDup symbols →
  get_modules_to_keep symbols [] = symbols.
Proof.
  intros Hsorted Hnodup. unfold get_modules_to_keep.
  apply (StronglySorted_unique String.le); [apply sorted_StronglySorted|done|].
  rewrite sorted_Permutation.
  change (list_to_set (omap id [])) with (∅ : gset string).
  rewrite difference_empty_L.
  by apply elements_list_to_set.
Qed.

Lemma length_block_lines padding base_import symbols :
  length (block_lines padding base_import symbols) = S (S (length symbols)).
Proof. unfold block_lines. simpl. rewrite length_app, length_fmap. simpl. lia. Qed.

(** The grouping of a statement in the output form finds its symbols and
    its closing line. *)
Lemma group_multiline_imports_block before after padding base_import symbols :
  Py.all Py.is_space padding = true → Forall plain_symbol symbols →
  group_multiline_imports (Py.len before)
    (before ++ block_lines padding base_import symbols ++ after)
  = Ok (symbols, Py.len before + 1 + Py.len symbols).
Proof.
  intros Hpad Hsyms. unfold group_multiline_imports.
  set (symbol_lines := (λ s, Py.ln (padding +:+ "    " +:+ s +:+ ",")) <$> symbols).
  assert (∀ (j : nat) l, (j < S (length symbols))%nat →
            (symbol_lines ++ [Py.ln (padding +:+ ")")]) !! j = Some l →
            Py.getitem (before ++ block_lines padding base_import symbols ++ after)
              (Py.len before + 1 + Z.of_nat j) = Ok l) as Hget.
  { intros j l Hj Hl. unfold Py.len. rewrite getitem_nonneg by lia.
    replace (Z.to_nat (Z.of_nat (length before) + 1 + Z.of_nat j))
      with (length before + S j)%nat by lia.
    rewrite lookup_app_r by lia.
    replace (length before + S j - length before)%nat with (S j) by lia.
    rewrite lookup_app_l by (rewrite length_block_lines; lia).
    unfold block_lines. simpl. fold symbol_lines. by rewrite Hl. }
  rewrite (group_multiline_loop_scan _ _ _ _ symbol_lines (Py.ln (padding +:+ ")"))).
  - simpl. f_equal. f_equal.
    + unfold symbol_lines. rewrite <- list_fmap_compose.
      rewrite <- (list_fmap_id symbols) at 2. apply Forall_fmap_ext_1.
      eapply Forall_impl; [exact Hsyms|]. intros s Hs. simpl.
      by apply multiline_symbol_block_line.
    + unfold symbol_lines, Py.len. rewrite length_fmap. lia.
  - unfold scan_fuel, symbol_lines, Py.len.
    rewrite length_fmap, !length_app, length_block_lines. lia.
  - intros j l Hl. split.
    + apply Hget.
      * apply lookup_lt_Some in Hl. unfold symbol_lines in Hl.
        rewrite length_fmap in Hl. lia.
      * by rewrite lookup_app_l by (by eapply lookup_lt_Some).
    + unfold symbol_lines in Hl. apply list_lookup_fmap_Some in Hl as (s & -> & Hs).
      assert (plain_symbol s) as Hplain.
      { eapply Forall_lookup_1; [exact Hsyms|exact Hs]. }
      destruct (multiline_symbol_block_line padding s Hpad Hplain) as [-> _].
      by destruct s as [|? [|]].
  - apply Hget.
    + unfold symbol_lines. rewrite length_fmap. lia.
    + rewrite lookup_app_r by done. by rewrite Nat.sub_diag.
  - by apply strip_closing_line.
Qed.

(** A parenthesised statement that already has the rewriter's output
    form is written again as it is: at least two symbols, in
    alphabetical order and without repetition, one per line with four
    more spaces and a comma, and the closing parenthesis at the
    statement's indentation.  The buffer then holds the statement as one
    element, and the text of the file is the text it had. *)
Lemma handle_multiline_imports_output_form
    (before after : list string) padding module_part symbols line_adjustment :
  Py.all Py.is_space padding = true →
  Py.mem "010" module_part = false →
  Forall plain_symbol symbols →
  StronglySorted String.le symbols → NoDup symbols →
  (2 ≤ length symbols)%nat →
  let base_import := "from " +:+ module_part in
  let statement := block_lines padding base_import symbols in
  let file_lines := before ++ statement ++ after in
  let file_lines' := before ++ [Fs.writelines statement] ++ after in
  handle_multiline_imports [] (Py.len before)
    (Py.ln (padding +:+ base_import +:+ "import (")) line_adjustment file_lines
  = Ok (line_adjustment + Py.len symbols + 1, file_lines')
  ∧ Fs.writelines file_lines' = Fs.writelines file_lines.
Proof.
  intros Hpad Hnl Hplain Hsorted Hnodup Hlen base_import statement file_lines file_lines'.
  split.
  - unfold handle_multiline_imports.
    unfold file_lines, statement.
    rewrite group_multiline_imports_block by done. cbn [mbind result_bind].
    rewrite get_modules_to_keep_none by done.
    destruct symbols as [|first [|second others]]; [simpl in Hlen; lia..|].
    set (symbols := first :: second :: others) in *.
    unfold base_import. rewrite base_import_groups_opening by done.
    cbn [mbind result_bind].
    assert (0 ≤ Py.len before) as Hb by (unfold Py.len; lia).
    assert (0 ≤ Py.len symbols) as Hs by (unfold Py.len; lia).
    rewrite cut_span by lia.
    rewrite insert_cut_span;
      [|lia|unfold Py.len in *; rewrite !length_app, length_block_lines; lia].
    replace (Z.to_nat (Py.len before)) with (length before)
      by (unfold Py.len; lia).
    rewrite take_app_length.
    replace (S (Z.to_nat (Py.len before + 1 + Py.len symbols)))
      with (length before + length (block_lines padding ("from " +:+ module_part) symbols))%nat
      by (rewrite length_block_lines; unfold Py.len; lia).
    rewrite <- drop_drop, drop_app_length, drop_app_length.
    rewrite build_multiline_import_block by done. rewrite sorted_id by done.
    f_equal. f_equal.
    unfold Py.len. rewrite !length_app, length_block_lines. simpl. lia.
  - unfold file_lines', file_lines, Fs.writelines.
    by rewrite !concat_nil_app.
Qed.

(** ** Rewriting with nothing to remove: the statements on one line *)

Section one_line_facts.
Implicit Types (s t lit : string) (c : ascii).

Lemma split_without_separator c sep s :
  Py.contains (String c sep) s = false → Py.split (String c sep) s = [s].
Proof.
  unfold Py.split. induction s as [|d s IH]; [done|].
  cbn [Py.contains Py.split_go]. intros [Hpre Hrest]%orb_false_elim.
  rewrite Hpre, IH by done. done.
Qed.

Lemma prefix_nil s : String.prefix "" s = true.
Proof. by destruct s. Qed.

(** Whether a text starts with [lit] is decided by its first characters. *)
Lemma prefix_app lit s t :
  (String.length lit ≤ String.length s)%nat →
  String.prefix lit (s +:+ t) = String.prefix lit s.
Proof.
  revert s. induction lit as [|a lit IH]; intros s Hlen.
  { by rewrite !prefix_nil. }
  destruct s as [|b s]; [simpl in Hlen; lia|].
  rewrite str_app_cons. simpl. destruct (ascii_dec a b); [|done].
  apply IH. simpl in Hlen. lia.
Qed.

Lemma prefix_app_same lit t : String.prefix lit (lit +:+ t) = true.
Proof.
  induction lit as [|a lit IH]; [apply prefix_nil|].
  rewrite str_app_cons. simpl. by destruct (ascii_dec a a).
Qed.

(** A text that starts with a longer literal starts with the shorter. *)
Lemma prefix_shorter lit more s :
  String.prefix lit s = false → String.prefix (lit +:+ more) s = false.
Proof.
  revert s. induction lit as [|a lit IH]; intros s.
  { by rewrite prefix_nil. }
  rewrite str_app_cons. destruct s as [|b s]; [done|]. simpl.
  destruct (ascii_dec a b); [apply IH|done].
Qed.

Lemma contains_shorter lit more s :
  Py.contains lit s = false → Py.contains (lit +:+ more) s = false.
Proof.
  induction s as [|b s IH]; cbn [Py.contains].
  - intros [H _]%orb_false_elim. by rewrite prefix_shorter.
  - intros [H Hs]%orb_false_elim. rewrite prefix_shorter by done. by apply IH.
Qed.

(** A newline at the end of the text adds no occurrence of a literal
    without a newline. *)
Lemma prefix_app_newline lit s :
  Py.mem "010" lit = false → lit ≠ "" →
  String.prefix lit (s +:+ Py.nl) = String.prefix lit s.
Proof.
  revert s. induction lit as [|a lit IH]; intros s Hnl Hne; [done|].
  cbn [Py.mem] in Hnl. destruct (decide ("010"%char = a)) as [|Ha]; [done|].
  destruct s as [|b s].
  - rewrite str_app_nil_l. unfold Py.nl. simpl.
    destruct (ascii_dec a "010"); [congruence|done].
  - rewrite str_app_cons. simpl. destruct (ascii_dec a b); [|done].
    destruct lit as [|a' lit]; [by rewrite !prefix_nil|]. by apply IH.
Qed.

Lemma contains_app_newline lit s :
  Py.mem "010" lit = false → lit ≠ "" →
  Py.contains lit (s +:+ Py.nl) = Py.contains lit s.
Proof.
  intros Hnl Hne. induction s as [|b s IH].
  - rewrite str_app_nil_l. destruct lit as [|a lit]; [done|].
    cbn [Py.mem] in Hnl. destruct (decide ("010"%char = a)) as [|Ha]; [done|].
    unfold Py.nl. simpl. destruct (ascii_dec a "010"); [congruence|done].
  - rewrite str_app_cons. cbn [Py.contains]. rewrite <- str_app_cons.
    rewrite prefix_app_newline by done. by rewrite IH.
Qed.

Lemma contains_cons_other a lit c s :
  a ≠ c → Py.contains (String a lit) (String c s) = Py.contains (String a lit) s.
Proof. intros H. cbn [Py.contains]. simpl. by destruct (ascii_dec a c). Qed.

Lemma str_length_app s t :
  String.length (s +:+ t) = (String.length s + String.length t)%nat.
Proof.
  induction s as [|c s IH]; [by rewrite str_app_nil_l|].
  rewrite str_app_cons. simpl. by rewrite IH.
Qed.

(** [split] passes the separator it has found. *)
Lemma split_go_skip sep k t :
  Py.split_go sep (String.length k) (k +:+ t) = Py.split_go sep 0 t.
Proof.
  induction k as [|c k IH]; [by rewrite str_app_nil_l|].
  rewrite str_app_cons. exact IH.
Qed.

Lemma split_separator_first a sep t :
  Py.split (String a sep) (String a sep +:+ t) = "" :: Py.split (String a sep) t.
Proof.
  unfold Py.split. rewrite str_app_cons. cbn [Py.split_go].
  rewrite <- str_app_cons, prefix_app_same.
  replace (String.length (String a sep) - 1)%nat with (String.length sep)
    by (simpl; lia).
  by rewrite split_go_skip.
Qed.

(** The first field ends where the separator first occurs: no occurrence
    starts in [s] when [s], followed by all but the last character of the
    separator, does not hold the separator. *)
Lemma split_first_import s t :
  Py.contains "import" (s +:+ "impor") = false →
  Py.split "import" (s +:+ "import" +:+ t) = s :: Py.split "import" t.
Proof.
  induction s as [|c s IH].
  { intros _. rewrite str_app_nil_l. apply split_separator_first. }
  intros H. rewrite (str_app_cons c s "impor") in H. cbn [Py.contains] in H.
  apply orb_false_elim in H as [Hhere Hrest].
  unfold Py.split in *. rewrite (str_app_cons c s ("import" +:+ t)).
  cbn [Py.split_go].
  assert (String c (s +:+ "import" +:+ t)
          = String c (s +:+ "impor") +:+ ("t" +:+ t)) as E.
  { rewrite (str_app_cons c), str_app_assoc. reflexivity. }
  rewrite E at 1.
  rewrite prefix_app by (simpl; rewrite str_length_app; simpl; lia).
  rewrite Hhere. by rewrite IH.
Qed.

Lemma split_char_app c s t :
  Py.mem c s = false →
  Py.split (String c "") (s +:+ String c "" +:+ t) = s :: Py.split (String c "") t.
Proof.
  unfold Py.split. induction s as [|d s IH].
  { intros _. rewrite str_app_nil_l. apply split_separator_first. }
  intros H. cbn [Py.mem] in H.
  destruct (decide (c = d)) as [|Hd]; [done|].
  rewrite str_app_cons. cbn [Py.split_go String.prefix].
  destruct (ascii_dec c d) as [|_]; [done|]. by rewrite IH.
Qed.

(** The fields of a list joined by a comma and a space: every field but
    the first starts with the space. *)
Lemma split_comma_join pre s rest :
  Py.mem "," pre = false → Forall (λ x, Py.mem "," x = false) (s :: rest) →
  Py.split "," (pre +:+ Py.join ", " (s :: rest))
  = (pre +:+ s) :: ((λ x, " " +:+ x) <$> rest).
Proof.
  revert pre s. induction rest as [|s' rest IH]; intros pre s Hpre Hall.
  - apply Forall_cons in Hall as [Hs _]. simpl.
    apply split_without_separator. rewrite contains_char, mem_app.
    by rewrite Hpre, Hs.
  - apply Forall_cons in Hall as [Hs Hall].
    change (Py.join ", " (s :: s' :: rest))
      with (s +:+ ", " +:+ Py.join ", " (s' :: rest)).
    rewrite <- str_app_assoc.
    change (", " +:+ Py.join ", " (s' :: rest))
      with ("," +:+ " " +:+ Py.join ", " (s' :: rest)).
    rewrite split_char_app by (by rewrite mem_app, Hpre, Hs).
    by rewrite IH.
Qed.

Lemma strip_space_newline s :
  Py.strip s = s → s ≠ "" → Py.strip (" " +:+ s +:+ Py.nl) = s.
Proof.
  intros [Hl Hr]%strip_with_fixed Hne. unfold Py.strip.
  rewrite (lstrip_with_app_all _ " ") by done.
  destruct s as [|c s]; [done|].
  rewrite lstrip_with_app_fixed_cons by done.
  by rewrite rstrip_with_app_all.
Qed.

Lemma strip_space s : Py.strip s = s → Py.strip (" " +:+ s) = s.
Proof.
  intros H. unfold Py.strip. by rewrite (lstrip_with_app_all _ " ").
Qed.

(** A joined list of symbols is left alone by [strip]. *)
Lemma strip_join symbols :
  symbols ≠ [] → Forall (λ s, Py.strip s = s ∧ s ≠ "") symbols →
  Py.strip (Py.join ", " symbols) = Py.join ", " symbols
  ∧ Py.join ", " symbols ≠ "".
Proof.
  intros Hne Hall. induction Hall as [|s rest [Hs Hs0] Hall IH]; [done|].
  destruct rest as [|s' rest]; [done|].
  destruct IH as [IH IH0]; [done|].
  change (Py.join ", " (s :: s' :: rest))
    with (s +:+ ", " +:+ Py.join ", " (s' :: rest)).
  destruct s as [|c s]; [done|]. split; [|by rewrite str_app_cons].
  apply strip_with_fixed in Hs as [Hl Hr].
  apply strip_with_fixed in IH as [IHl IHr].
  unfold Py.strip. rewrite lstrip_with_app_fixed_cons by done.
  rewrite rstrip_with_app_keep.
  - rewrite rstrip_with_app_keep; [by rewrite IHr|by rewrite IHr].
  - rewrite rstrip_with_app_keep; [|by rewrite IHr]. by rewrite IHr.
Qed.

End one_line_facts.

(** The symbols of a statement on one line whose symbols are joined by a
    comma and a space. *)
Lemma split_single_line_multi_imports_joined before_keyword symbols :
  Py.contains "import" (before_keyword +:+ "impor") = false →
  Py.contains "import" (Py.join ", " symbols) = false →
  symbols ≠ [] → Forall line_symbol symbols →
  split_single_line_multi_imports
    (Py.ln (before_keyword +:+ "import " +:+ Py.join ", " symbols))
  = Ok symbols.
Proof.
  intros Hbefore Hafter Hne Hall. unfold split_single_line_multi_imports, Py.ln.
  rewrite str_app_assoc.
  change ("import " +:+ Py.join ", " symbols)
    with ("import" +:+ " " +:+ Py.join ", " symbols).
  rewrite !str_app_assoc.
  rewrite split_first_import by done.
  rewrite split_without_separator; cycle 1.
  { rewrite (str_app_cons " " ""), str_app_nil_l.
    rewrite contains_cons_other by done.
    by rewrite contains_app_newline. }
  cbn [mbind result_bind].
  destruct (strip_join symbols) as [Hstrip Hjoin]; [done| |].
  { eapply Forall_impl; [exact Hall|]. by intros s (? & ? & _). }
  rewrite strip_space_newline by done.
  destruct symbols as [|s rest]; [done|].
  pose proof (split_comma_join "" s rest eq_refl) as Hsplit.
  rewrite str_app_nil_l in Hsplit. rewrite Hsplit; cycle 1.
  { eapply Forall_impl; [exact Hall|]. by intros x (_ & _ & ?). }
  rewrite str_app_nil_l. f_equal.
  rewrite fmap_cons, <- list_fmap_compose.
  assert (∀ l, Forall line_symbol l → filter (λ x, x ≠ "") l = l) as Hfilter.
  { intros l Hl. induction Hl as [|x l (_ & Hx & _) _ IH]; [done|].
    rewrite filter_cons_True by done. by rewrite IH. }
  transitivity (filter (λ x, x ≠ "") (s :: rest)); [f_equal|by apply Hfilter].
  apply Forall_cons in Hall as [(Hs & _) Hrest]. rewrite Hs. f_equal.
  rewrite <- (list_fmap_id rest) at 2. apply Forall_fmap_ext_1.
  eapply Forall_impl; [exact Hrest|]. intros x (Hx & _). simpl.
  by apply strip_space.
Qed.

(** [BASE_IMPORT_RE] on a statement of one line. *)
Lemma base_import_groups_bare padding rest :
  Py.all Py.is_space padding = true →
  base_import_groups (padding +:+ "import " +:+ rest) = Ok (padding, "").
Proof.
  intros Hpad. unfold base_import_groups, Re.match_base_import.
  rewrite spaces_app by done. by rewrite eat_app.
Qed.

Lemma base_import_groups_from padding module_part rest :
  Py.all Py.is_space padding = true → Py.mem "010" module_part = false →
  Py.contains "import " rest = false →
  base_import_groups (padding +:+ ("from " +:+ module_part) +:+ "import " +:+ rest)
  = Ok (padding, "from " +:+ module_part).
Proof.
  intros Hpad Hnl Hrest. unfold base_import_groups, Re.match_base_import.
  rewrite !str_app_assoc. rewrite spaces_app by done.
  rewrite eat_app. cbn [mbind option_bind].
  by rewrite dot_star_then_last_import.
Qed.

(** Taking a line out and putting it back at the same place. *)
Lemma pop_insert_same (file_lines : list string) index line :
  0 ≤ index → file_lines !! Z.to_nat index = Some line →
  ∃ rest, Py.pop file_lines index = Ok rest
          ∧ Py.insert rest index line = file_lines.
Proof.
  intros Hi Hline. pose proof (lookup_lt_Some _ _ _ Hline) as Hlt.
  exists (take (Z.to_nat index) file_lines ++ drop (S (Z.to_nat index)) file_lines).
  split.
  - unfold Py.pop, Py.norm_index, Py.len.
    rewrite decide_True by lia. done.
  - rewrite insert_cut_span by (unfold Py.len; lia).
    by apply take_drop_middle.
Qed.

(** A statement on one line that the handler reads and writes in the
    same way stays as it is. *)
Lemma handle_single_line_multiple_imports_same index line line_adjustment
    file_lines padding base_import symbols :
  0 ≤ index → file_lines !! Z.to_nat index = Some line →
  Py.contains ESCAPE_CHARACTER line = false →
  split_single_line_multi_imports line = Ok symbols →
  symbols ≠ [] → StronglySorted String.le symbols → NoDup symbols →
  base_import_groups line = Ok (padding, base_import) →
  (match symbols with
   | [only] => padding +:+ base_import +:+ ("import " +:+ only +:+ Py.nl)
   | _ => build_multiline_import padding base_import symbols
   end) = line →
  handle_single_line_multiple_imports [] index line line_adjustment file_lines
  = Ok (line_adjustment, file_lines).
Proof.
  intros Hi Hline Hesc Hsplit Hne Hsorted Hnodup Hgroups Hnew.
  unfold handle_single_line_multiple_imports. rewrite Hesc, Hsplit.
  cbn [mbind result_bind].
  destruct (pop_insert_same file_lines index line Hi Hline) as (rest & -> & Hins).
  cbn [mbind result_bind]. rewrite get_modules_to_keep_none by done.
  destruct symbols as [|only others]; [done|].
  rewrite Hgroups. cbn [mbind result_bind].
  destruct others as [|another others]; by rewrite Hnew, Hins.
Qed.

(** C3, as amended: with nothing to remove, a statement that already has
    the form the rewriter writes is left as it is, byte for byte.  At a
    start index that is not negative, [handle_single_line_multiple_imports]
    gives back the buffer and the adjustment it was given for
    - a statement on one line that imports one symbol, bare or with a
      [from] part, at any indentation, and
    - a bare import on one line, not indented, whose symbols are in
      alphabetical order, without repetition, and joined by a comma and
      a space;
    the symbols have no whitespace around them, are not empty and hold
    no comma, the line holds no backslash, and the word import occurs on
    the line only as the keyword, neither before it nor in the symbols.
    For a parenthesised
    statement with a [from] part and at least two symbols in alphabetical
    order and without repetition, one per line with four more spaces and
    a comma, closed by a parenthesis at the statement's indentation,
    [handle_multiline_imports] writes the same text again: the buffer
    holds the statement as one element and the text of the file is the
    text it had. *)
Theorem rewrite_with_nothing_unused_is_identity :
  (∀ index line_adjustment (file_lines : list string) padding base_import symbol,
     let line := Py.ln (padding +:+ base_import +:+ "import " +:+ symbol) in
     0 ≤ index → file_lines !! Z.to_nat index = Some line →
     Py.all Py.is_space padding = true →
     (base_import = ""
      ∨ ∃ module_part, base_import = "from " +:+ module_part
                       ∧ Py.mem "010" module_part = false) →
     Py.contains "import" (padding +:+ base_import +:+ "impor") = false →
     line_symbol symbol → Py.contains "import" symbol = false →
     Py.contains ESCAPE_CHARACTER line = false →
     handle_single_line_multiple_imports [] index line line_adjustment file_lines
     = Ok (line_adjustment, file_lines))
  ∧ (∀ index line_adjustment (file_lines : list string) symbols,
       let line := Py.ln ("import " +:+ Py.join ", " symbols) in
       0 ≤ index → file_lines !! Z.to_nat index = Some line →
       symbols ≠ [] → Forall line_symbol symbols →
       StronglySorted String.le symbols → NoDup symbols →
       Py.contains "import" (Py.join ", " symbols) = false →
       Py.contains ESCAPE_CHARACTER line = false →
       handle_single_line_multiple_imports [] index line line_adjustment file_lines
       = Ok (line_adjustment, file_lines))
  ∧ (∀ (before after : list string) padding module_part symbols line_adjustment,
       Py.all Py.is_space padding = true →
       Py.mem "010" module_part = false →
       Forall plain_symbol symbols →
       StronglySorted String.le symbols → NoDup symbols →
       (2 ≤ length symbols)%nat →
       let base_import := "from " +:+ module_part in
       let statement := block_lines padding base_import symbols in
       let file_lines := before ++ statement ++ after in
       let file_lines' := before ++ [Fs.writelines statement] ++ after in
       handle_multiline_imports [] (Py.len before)
         (Py.ln (padding +:+ base_import +:+ "import (")) line_adjustment file_lines
       = Ok (line_adjustment + Py.len symbols + 1, file_lines')
       ∧ Fs.writelines file_lines' = Fs.writelines file_lines).
Proof.
  split_and!.
  - intros index la fl padding base symbol line Hi Hline Hpad Hbase Hbefore
      Hsym Himp Hesc.
    assert (split_single_line_multi_imports line = Ok [symbol]) as Hsplit.
    { replace line
        with (Py.ln ((padding +:+ base) +:+ "import " +:+ Py.join ", " [symbol]))
        by (unfold line; by rewrite str_app_assoc).
      apply split_single_line_multi_imports_joined.
      - by rewrite <- str_app_assoc in Hbefore.
      - exact Himp.
      - done.
      - by apply Forall_singleton. }
    assert (base_import_groups line = Ok (padding, base)) as Hgroups.
    { unfold line, Py.ln. destruct Hbase as [->|(module_part & -> & Hnl)].
      - rewrite str_app_nil_l, !str_app_assoc.
        by apply base_import_groups_bare.
      - rewrite !str_app_assoc. rewrite <- (str_app_assoc "from ").
        apply base_import_groups_from; [done..|].
        apply (contains_shorter "import" " ").
        rewrite contains_app_newline; done. }
    apply (handle_single_line_multiple_imports_same index line la fl
             padding base [symbol] Hi Hline Hesc Hsplit).
    + done.
    + repeat constructor.
    + repeat constructor. by intros ?%elem_of_nil.
    + exact Hgroups.
    + unfold line, Py.ln. by rewrite !str_app_assoc.
  - intros index la fl symbols line Hi Hline Hne Hall Hsorted Hnodup Himp Hesc.
    assert (split_single_line_multi_imports line = Ok symbols) as Hsplit.
    { unfold line. rewrite <- (str_app_nil_l ("import " +:+ _)).
      by apply split_single_line_multi_imports_joined. }
    assert (base_import_groups line = Ok ("", "")) as Hgroups.
    { unfold line, Py.ln. rewrite str_app_assoc.
      by apply (base_import_groups_bare ""). }
    assert (build_multiline_import "" "" symbols = line) as Hbuild.
    { unfold build_multiline_import. rewrite decide_True by done.
      by rewrite sorted_id. }
    apply (handle_single_line_multiple_imports_same index line la fl "" "" symbols
             Hi Hline Hesc Hsplit Hne Hsorted Hnodup Hgroups).
    destruct symbols as [|only [|another others]]; [done| |exact Hbuild].
    unfold line, Py.ln. simpl. by rewrite !str_app_nil_l, str_app_assoc.
  - intros *. apply handle_multiline_imports_output_form.
Qed.

(** ** Where the specification does not hold as written *)

(** C1, as stated, fails: the second diagnostic points into the statement
    the first edit removed, the index is [2 - 1 - 3 = -2], the backslash
    branch adds [end_index - index = 1] to the adjustment, and the buffer,
    far from losing a line, gains one. *)
Lemma line_adjustment_counterexample :
  group_by_line example_overlap_diagnostics = Ok example_overlap_by_line
  ∧ sorted_keys example_overlap_by_line = [1; 2]
  ∧ apply_edit re_never example_overlap_by_line (0, example_overlap) 1
    = Ok (3, example_overlap_first)
  ∧ apply_edit re_never example_overlap_by_line (3, example_overlap_first) 2
    = Ok (4, example_overlap_second)
  ∧ 4 - 3 ≠ Py.len example_overlap_first - Py.len example_overlap_second.
Proof. split_and!; [by vm_compute..|]. vm_compute. discriminate. Qed.

(** C3, as stated, fails: with nothing to remove, a statement with a
    [from] part and two symbols on one line is rewritten into the
    parenthesised form.  Nor is that the only shape that changes: a bare
    import continued with a backslash is joined on one line, a bare
    import loses its indentation, gets a space after each comma and has
    its symbols sorted, a parenthesised statement of one symbol is put on
    one line, the symbols of a parenthesised statement are sorted, and a
    statement whose symbol holds the word import is deleted. *)
Lemma rewrite_changes_single_line_statement :
  handle_single_line_multiple_imports [] 0 (Py.ln "from p import a, b") 0
    [Py.ln "from p import a, b"]
  = Ok (0, [Py.ln "from p import (" +:+ Py.ln "    a," +:+ Py.ln "    b,"
            +:+ Py.ln ")"])
  ∧ Fs.writelines
      [Py.ln "from p import (" +:+ Py.ln "    a," +:+ Py.ln "    b," +:+ Py.ln ")"]
    ≠ Fs.writelines [Py.ln "from p import a, b"]
  ∧ handle_single_line_multiple_imports [] 0 (Py.ln "import a, \") 0
      [Py.ln "import a, \"; Py.ln "    b"]
    = Ok (1, [Py.ln "import a, b"])
  ∧ handle_single_line_multiple_imports [] 0 (Py.ln "    import a, b") 0
      [Py.ln "    import a, b"]
    = Ok (0, [Py.ln "import a, b"])
  ∧ handle_single_line_multiple_imports [] 0 (Py.ln "import a,b") 0
      [Py.ln "import a,b"]
    = Ok (0, [Py.ln "import a, b"])
  ∧ handle_single_line_multiple_imports [] 0 (Py.ln "import b, a") 0
      [Py.ln "import b, a"]
    = Ok (0, [Py.ln "import a, b"])
  ∧ handle_multiline_imports [] 0 (Py.ln "from p import (") 0
      [Py.ln "from p import ("; Py.ln "    a,"; Py.ln ")"]
    = Ok (2, [Py.ln "from p import a"])
  ∧ handle_multiline_imports [] 0 (Py.ln "from p import (") 0
      [Py.ln "from p import ("; Py.ln "    b,"; Py.ln "    a,"; Py.ln ")"]
    = Ok (3, [Py.ln "from p import (" +:+ Py.ln "    a," +:+ Py.ln "    b,"
              +:+ Py.ln ")"])
  ∧ handle_single_line_multiple_imports [] 0 (Py.ln "from p import important") 0
      [Py.ln "from p import important"]
    = Ok (1, []).
Proof. split_and!; by vm_compute. Qed.

(** C10, as stated, fails at a negative start index.  The diagnostics of
    [example_negative] are at lines 1 and 4; the first edit leaves five
    elements and the adjustment 7, so the second index is
    [4 - 1 - 7 = -4], which denotes the opening line of the second
    statement, at position 1.  Its scan ends at the index [-1], the slice
    from [end_index + 1 = 0] is the whole buffer, and the handler keeps
    the four lines of the statement, repeats the element before them and
    adds the rebuilt statement.  The backslash branch does the same at
    the index [-2] of [example_overlap_first], and on a statement of one
    line the new line is inserted one place before the line that was
    removed.  In each case the result is not the buffer with the lines of
    the span, at the positions the indices denote, replaced by at most
    one line. *)
Lemma handlers_edit_outside_the_span_at_negative_index :
  sorted_keys example_negative_by_line = [1; 4]
  ∧ apply_edit re_never example_negative_by_line (0, example_negative) 1
    = Ok (7, example_negative_first)
  ∧ apply_edit re_never example_negative_by_line (7, example_negative_first) 4
    = Ok (5, example_negative_second)
  ∧ 4 - 1 - 7 = -4
  ∧ Py.getitem example_negative_first (-4) = Ok (Py.ln "from q import (")
  ∧ group_multiline_imports (-4) example_negative_first = Ok (["d"; "e"], -1)
  ∧ Py.norm_index example_negative_first (-4) = Some 1%nat
  ∧ Py.norm_index example_negative_first (-1) = Some 4%nat
  ∧ handle_multiline_imports [Some "c"] (-4) (Py.ln "from q import (") 7
      example_negative_first
    = Ok (5, example_negative_second)
  ∧ drop 3 example_negative_second = drop 1 example_negative_first
  ∧ ¬ edits_span 1 4 example_negative_first example_negative_second
  ∧ Py.norm_index example_overlap_first (-2) = Some 0%nat
  ∧ group_escaped_imports (-2) example_overlap_first = Ok (["b"; "c"], -1)
  ∧ Py.norm_index example_overlap_first (-1) = Some 1%nat
  ∧ handle_single_line_multiple_imports [Some "b"] (-2) (Py.ln "import b, \") 3
      example_overlap_first
    = Ok (4, example_overlap_second)
  ∧ ¬ edits_span 0 1 example_overlap_first example_overlap_second
  ∧ Py.norm_index example_from_the_end (-2) = Some 1%nat
  ∧ handle_single_line_multiple_imports [Some "b"] (-2) (Py.ln "import a, b") 0
      example_from_the_end
    = Ok (0, example_from_the_end_edited)
  ∧ ¬ edits_span 1 1 example_from_the_end example_from_the_end_edited.
Proof.
  split_and!; try (by vm_compute).
  - intros (replacement & Hlen & H). apply (f_equal length) in H.
    rewrite !length_app in H. simpl in H. lia.
  - intros (replacement & Hlen & H). apply (f_equal length) in H.
    rewrite !length_app in H. simpl in H. lia.
  - intros (replacement & Hlen & H). simpl in H. discriminate H.
Qed.

(** ** The statements at concrete inputs *)

Lemma line_adjustment_tracks_edits_witness :
  aligned example_overlap (-1) 0 example_overlap
  ∧ apply_edit re_never example_overlap_by_line (0, example_overlap) 1
    = Ok (3, example_overlap_first)
  ∧ 3 - 0 = Py.len example_overlap - Py.len example_overlap_first
  ∧ Py.getitem example_overlap (1 - 1 - 0) = Py.getitem example_overlap (1 - 1)
  ∧ ∃ end_index,
      1 - 1 - 0 ≤ end_index < Py.len example_overlap
      ∧ edits_span (1 - 1 - 0) end_index example_overlap example_overlap_first
      ∧ aligned example_overlap (end_index + 0) 3 example_overlap_first.
Proof.
  pose proof (line_adjustment_tracks_edits re_never example_overlap_by_line)
    as (_ & Hdelta & Hstart & Hstep).
  assert (apply_edit re_never example_overlap_by_line (0, example_overlap) 1
          = Ok (3, example_overlap_first)) as Hedit by reflexivity.
  assert (-1 < 1 - 1) as Hafter by lia.
  destruct (Hstep example_overlap (-1) 0 example_overlap 1
              (Hstart example_overlap) Hafter) as (_ & Hline & Hnext).
  split; [apply Hstart|]. split; [exact Hedit|]. split.
  - apply (Hdelta 0 example_overlap 1 3 example_overlap_first); [left; lia|exact Hedit].
  - split; [exact Hline|]. apply Hnext. exact Hedit.
Defined.

Lemma build_multiline_import_spec_witness :
  "from p " ≠ ""
  ∧ build_multiline_import "  " "from p " ["b"; "a"]
    = Fs.writelines (String.append "  " <$> block_lines "" "from p " (sorted ["b"; "a"]))
  ∧ Forall (λ s, Py.mem "010" s = false) ["b"; "a"]
  ∧ Py.count "010" (build_multiline_import "  " "" ["b"; "a"]) = 1%nat.
Proof.
  pose proof build_multiline_import_spec as (_ & _ & Hblock & _ & Hline).
  assert ("from p " ≠ "") as Hbase by discriminate.
  assert (Forall (λ s, Py.mem "010" s = false) ["b"; "a"]) as Hsyms
    by (repeat constructor).
  split; [exact Hbase|]. split; [exact (Hblock "  " "from p " ["b"; "a"] Hbase)|].
  split; [exact Hsyms|]. exact (Hline "  " ["b"; "a"] Hsyms).
Defined.

Lemma rewrite_with_nothing_unused_is_identity_witness :
  handle_single_line_multiple_imports [] 1
    (Py.ln ("    " +:+ "from p " +:+ "import " +:+ "a")) 0
    [Py.ln "def f():"; Py.ln ("    " +:+ "from p " +:+ "import " +:+ "a")]
  = Ok (0, [Py.ln "def f():"; Py.ln ("    " +:+ "from p " +:+ "import " +:+ "a")])
  ∧ handle_single_line_multiple_imports [] 0
      (Py.ln ("import " +:+ Py.join ", " ["a"; "b"])) 0
      [Py.ln ("import " +:+ Py.join ", " ["a"; "b"]); Py.ln "x = 1"]
    = Ok (0, [Py.ln ("import " +:+ Py.join ", " ["a"; "b"]); Py.ln "x = 1"])
  ∧ handle_multiline_imports [] (Py.len [Py.ln "import m"])
      (Py.ln ("" +:+ ("from " +:+ "p ") +:+ "import (")) 0
      ([Py.ln "import m"] ++ block_lines "" ("from " +:+ "p ") ["a"; "b"] ++ [])
    = Ok (0 + Py.len ["a"; "b"] + 1,
          [Py.ln "import m"]
          ++ [Fs.writelines (block_lines "" ("from " +:+ "p ") ["a"; "b"])] ++ [])
  ∧ Fs.writelines
      ([Py.ln "import m"]
       ++ [Fs.writelines (block_lines "" ("from " +:+ "p ") ["a"; "b"])] ++ [])
    = Fs.writelines
        ([Py.ln "import m"] ++ block_lines "" ("from " +:+ "p ") ["a"; "b"] ++ []).
Proof.
  pose proof rewrite_with_nothing_unused_is_identity as (Hone & Hbare & Hblock).
  split; [|split].
  - apply (Hone 1 0 [Py.ln "def f():"; Py.ln ("    " +:+ "from p " +:+ "import " +:+ "a")]
             "    " "from p " "a").
    + lia.
    + reflexivity.
    + reflexivity.
    + right. exists "p ". split; reflexivity.
    + reflexivity.
    + split; [reflexivity|]. split; [discriminate|reflexivity].
    + reflexivity.
    + reflexivity.
  - apply (Hbare 0 0 [Py.ln ("import " +:+ Py.join ", " ["a"; "b"]); Py.ln "x = 1"]
             ["a"; "b"]).
    + lia.
    + reflexivity.
    + discriminate.
    + repeat (apply Forall_cons; split;
                [split; [reflexivity|]; split; [discriminate|reflexivity]|]).
      apply Forall_nil_2.
    + repeat constructor.
    + apply (bool_decide_unpack _). vm_compute. exact I.
    + reflexivity.
    + reflexivity.
  - apply (Hblock [Py.ln "import m"] [] "" "p " ["a"; "b"] 0).
    + reflexivity.
    + reflexivity.
    + repeat constructor.
    + repeat constructor.
    + apply (bool_decide_unpack _). vm_compute. exact I.
    + simpl. lia.
Defined.

Lemma group_multiline_imports_spec_witness :
  group_multiline_imports 0 [Py.ln "from p import ("; Py.ln "   a"; Py.ln ")"]
  = Ok (multiline_symbol <$> [Py.ln "   a"], 0 + 1 + Z.of_nat (length [Py.ln "   a"]))
  ∧ Py.mem "," (Py.strip (Py.ln "   a")) = false
  ∧ multiline_symbol (Py.ln "   a") = Py.strip (Py.ln "   a").
Proof.
  pose proof group_multiline_imports_spec as (Hscan & _ & Hcomma & _).
  assert (Py.mem "," (Py.strip (Py.ln "   a")) = false) as Hno by reflexivity.
  split; [|split; [exact Hno|exact (Hcomma _ Hno)]].
  apply (Hscan 0 [Py.ln "from p import ("; Py.ln "   a"; Py.ln ")"]
           [Py.ln "   a"] (Py.ln ")")).
  - intros [|[|j]] l Hl; simpl in Hl; [|discriminate..].
    injection Hl as <-. split; [reflexivity|]. vm_compute. discriminate.
  - reflexivity.
  - reflexivity.
Defined.


Lemma parse_pyflake_unused_import_error_spec_witness :
  length (Py.split ":" "no diagnostic") ≠ 3%nat
  ∧ parse_pyflake_unused_import_error "no diagnostic" = Raise ValueError
  ∧ Py.split ":" "f.py:1: undefined name x" = ["f.py"; "1"; " undefined name x"]
  ∧ (Py.count "'" " undefined name x" < 2)%nat
  ∧ parse_pyflake_unused_import_error "f.py:1: undefined name x"
    = Ok ("f.py", "1", None).
Proof.
  pose proof parse_pyflake_unused_import_error_spec as (_ & Hraise & Hnone).
  assert (length (Py.split ":" "no diagnostic") ≠ 3%nat) as Hfields
    by (vm_compute; discriminate).
  assert (Py.split ":" "f.py:1: undefined name x"
          = ["f.py"; "1"; " undefined name x"]) as Hsplit by reflexivity.
  assert (Py.count "'" " undefined name x" < 2)%nat as Hquotes by (vm_compute; lia).
  split; [exact Hfields|]. split; [exact (Hraise _ Hfields)|].
  split; [exact Hsplit|]. split; [exact Hquotes|].
  exact (Hnone _ _ _ _ Hsplit Hquotes).
Defined.

Lemma init_file_is_skipped_witness :
  Py.endswith "__init__.py" "pkg/__init__.py" = true
  ∧ ∃ w', remove_unused_imports_from_file re_never true "pkg/__init__.py"
            [("1", Some "os")] (Fs.World {["pkg/__init__.py" := Py.ln "import os"]} [] [])
          = Ok w'
          ∧ Fs.files w' = {["pkg/__init__.py" := Py.ln "import os"]}
          ∧ Fs.opened w' = []
          ∧ Fs.stdout w' = [] ++ ["ignoring __init__.py file: " +:+ "pkg/__init__.py"].
Proof.
  assert (Py.endswith "__init__.py" "pkg/__init__.py" = true) as Hinit by reflexivity.
  split; [exact Hinit|].
  exact (init_file_is_skipped re_never true "pkg/__init__.py" [("1", Some "os")]
           (Fs.World {["pkg/__init__.py" := Py.ln "import os"]} [] []) Hinit).
Defined.

Lemma unterminated_scan_raises_witness :
  group_multiline_imports 0 [Py.ln "from p import ("; Py.ln "    a,"]
  = Raise IndexError
  ∧ group_escaped_imports 0 [Py.ln "import a, \"; Py.ln "    b, \"]
    = Raise IndexError.
Proof.
  pose proof unterminated_scan_raises as (Hparen & Hescaped).
  split.
  - apply Hparen. intros k l Hk Hl.
    assert (k = 1) as -> by (apply getitem_Ok_lt in Hl; unfold Py.len in Hl; simpl in Hl; lia).
    injection Hl as <-. vm_compute. discriminate.
  - apply Hescaped. intros k l Hk Hl.
    assert (k = 1) as -> by (apply getitem_Ok_lt in Hl; unfold Py.len in Hl; simpl in Hl; lia).
    injection Hl as <-. reflexivity.
Defined.

Lemma get_modules_to_keep_spec_witness :
  (∀ s, s ∈ ["b"; "a"] → Some s ∈ [Some "b"] ↔ Some s ∈ [Some "b"; Some "z"; None])
  ∧ get_modules_to_keep ["b"; "a"] [Some "b"; Some "z"; None]
    = get_modules_to_keep ["b"; "a"] [Some "b"].
Proof.
  pose proof (get_modules_to_keep_spec ["b"; "a"] [Some "b"]) as (_ & _ & _ & Hsame).
  assert (∀ s, s ∈ ["b"; "a"] →
               Some s ∈ [Some "b"] ↔ Some s ∈ [Some "b"; Some "z"; None]) as Hagree.
  { intros s Hs. rewrite !elem_of_cons, !elem_of_nil in *.
    destruct Hs as [->|[->|[]]]; split; intros H; try (by left);
      exfalso; repeat (destruct H as [H|H]; try discriminate); done. }
  split; [exact Hagree|]. exact (Hsame _ Hagree).
Defined.

Lemma handlers_edit_only_their_span_witness :
  handle_single_line_imports (-1) 0 example_multiline
  = Ok (1, take 6 example_multiline)
  ∧ (∃ position : nat,
       Py.norm_index example_multiline (-1) = Some position
       ∧ (position < length example_multiline)%nat
       ∧ take 6 example_multiline
         = take position example_multiline ++ drop (S position) example_multiline)
  ∧ 0 ≤ 1
  ∧ handle_multiline_imports [Some "a"] 1 (Py.ln "from p import (") 0
      example_multiline
    = Ok (3, [Py.ln "import m"; Py.ln "from p import b"; Py.ln ""; Py.ln "import e"])
  ∧ ∃ end_index symbols,
      group_multiline_imports 1 example_multiline = Ok (symbols, end_index)
      ∧ 1 < end_index < Py.len example_multiline
      ∧ edits_span 1 end_index example_multiline
          [Py.ln "import m"; Py.ln "from p import b"; Py.ln ""; Py.ln "import e"].
Proof.
  assert (handle_single_line_imports (-1) 0 example_multiline
          = Ok (1, take 6 example_multiline)) as Hpop by reflexivity.
  assert (0 ≤ 1) as Hindex by lia.
  assert (handle_multiline_imports [Some "a"] 1 (Py.ln "from p import (") 0
            example_multiline
          = Ok (3, [Py.ln "import m"; Py.ln "from p import b"; Py.ln "";
                    Py.ln "import e"])) as Hedit by reflexivity.
  split; [exact Hpop|]. split.
  - destruct (handlers_edit_only_their_span [] (-1) "" 0 example_multiline 1
                (take 6 example_multiline)) as (Hany & _).
    exact (Hany Hpop).
  - split; [exact Hindex|]. split; [exact Hedit|].
    destruct (handlers_edit_only_their_span [Some "a"] 1 (Py.ln "from p import (") 0
                example_multiline 3
                [Py.ln "import m"; Py.ln "from p import b"; Py.ln ""; Py.ln "import e"])
      as (_ & Hspan).
    destruct (Hspan Hindex) as (_ & _ & Hmulti).
    exact (Hmulti Hedit).
Defined.

(** * Further properties of the program *)

(** ** [_clean_line] *)

Lemma clean_line_app s t : _clean_line (s +:+ t) = _clean_line s +:+ _clean_line t.
Proof.
  induction s as [|c s IH]; [done|]. rewrite str_app_cons. simpl.
  destruct (bool_decide (c = "\"%char) || Py.is_space c); [done|].
  by rewrite str_app_cons, IH.
Qed.

(** X1: [_clean_line] removes the backslashes and the whitespace and
    nothing else: its result holds neither, every other character occurs
    as often as before, and cleaning a second time changes nothing. *)
Theorem clean_line_spec (line : string) :
  Py.mem "\" (_clean_line line) = false
  ∧ Py.all (λ c, negb (Py.is_space c)) (_clean_line line) = true
  ∧ (∀ c, c ≠ "\"%char → Py.is_space c = false →
          Py.count c (_clean_line line) = Py.count c line)
  ∧ _clean_line (_clean_line line) = _clean_line line.
Proof.
  induction line as [|d s (IH1 & IH2 & IH3 & IH4)]; [done|]. simpl.
  destruct (bool_decide (d = "\"%char)) eqn:Hd; simpl.
  { apply bool_decide_eq_true in Hd as ->. split_and!; try done.
    intros c Hc Hs. rewrite decide_False by done. by apply IH3. }
  apply bool_decide_eq_false in Hd.
  destruct (Py.is_space d) eqn:Hsp.
  { split_and!; try done. intros c Hc Hs.
    rewrite decide_False by congruence. by apply IH3. }
  simpl. rewrite Hsp. simpl. split_and!.
  - rewrite decide_False by congruence. done.
  - done.
  - intros c Hc Hs. by rewrite IH3.
  - rewrite bool_decide_eq_false_2 by done. simpl. by rewrite IH4.
Qed.

(** ** [split_single_line_multi_imports] *)

Lemma split_go_nonempty sep skip s : Py.split_go sep skip s ≠ [].
Proof.
  revert skip. induction s as [|c s IH]; intros skip; [done|].
  cbn [Py.split_go].
  destruct skip; [|apply IH]. destruct (String.prefix sep (String c s)); [done|].
  by destruct (Py.split_go sep 0 s).
Qed.

Lemma split_with_separator c sep s :
  Py.contains (String c sep) s = true →
  ∃ first second others, Py.split (String c sep) s = first :: second :: others.
Proof.
  unfold Py.split. induction s as [|d s IH]; [done|].
  cbn [Py.contains Py.split_go]. destruct (String.prefix _ _) eqn:Hpre.
  - intros _. pose proof (split_go_nonempty (String c sep)
      (String.length (String c sep) - 1) s) as Hne.
    destruct (Py.split_go (String c sep) (String.length (String c sep) - 1) s)
      as [|x xs]; [done|]. eauto.
  - simpl. intros (first & second & others & ->)%IH. eauto.
Qed.

Section strip_twice.
Implicit Types (s t : string) (p : ascii → bool).

Lemma lstrip_with_idemp p s :
    Py.lstrip_with p (Py.lstrip_with p s) = Py.lstrip_with p s.
  Proof.
    induction s as [|c s IH]; [done|]. simpl.
    destruct (p c) eqn:Hc; [done|]. simpl. by rewrite Hc.
  Qed.

Lemma rstrip_with_idemp p s :
    Py.rstrip_with p (Py.rstrip_with p s) = Py.rstrip_with p s.
  Proof.
    induction s as [|c s IH]; [done|]. simpl.
    destruct (Py.rstrip_with p s) as [|d r] eqn:E.
    - destruct (p c) eqn:Hc; [done|]. simpl. by rewrite Hc.
    - change (Py.rstrip_with p (String c (String d r)))
        with (match Py.rstrip_with p (String d r) with
              | EmptyString => if p c then "" else String c ""
              | String e r' => String c (String e r')
              end).
      by rewrite IH.
  Qed.

Lemma lstrip_with_rstrip_with p t :
    Py.lstrip_with p t = t →
    Py.lstrip_with p (Py.rstrip_with p t) = Py.rstrip_with p t.
  Proof.
    destruct t as [|c t]; [done|]. intros Hc%lstrip_with_fixed_head. simpl.
    destruct (Py.rstrip_with p t); rewrite ?Hc; simpl; by rewrite Hc.
  Qed.

Lemma strip_with_idemp p s :
    Py.rstrip_with p (Py.lstrip_with p
      (Py.rstrip_with p (Py.lstrip_with p s)))
    = Py.rstrip_with p (Py.lstrip_with p s).
  Proof.
    rewrite lstrip_with_rstrip_with by apply lstrip_with_idemp.
    apply rstrip_with_idemp.
  Qed.
End strip_twice.

Lemma strip_idemp s : Py.strip (Py.strip s) = Py.strip s.
Proof. apply strip_with_idemp. Qed.

(** X2: [split_single_line_multi_imports] raises [IndexError] exactly
    when the line does not hold the word import; every symbol it returns
    is non-empty and has no whitespace around it. *)
Theorem split_single_line_multi_imports_spec (line : string) :
  (Py.contains "import" line = false ↔
   split_single_line_multi_imports line = Raise IndexError)
  ∧ (∀ symbols, split_single_line_multi_imports line = Ok symbols →
       Forall (λ x, x ≠ "" ∧ Py.strip x = x) symbols).
Proof.
  unfold split_single_line_multi_imports. split.
  - destruct (Py.contains "import" line) eqn:E.
    + apply split_with_separator in E as (first & second & others & ->).
      split; done.
    + apply split_without_separator in E as ->. split; done.
  - intros symbols H.
    destruct (Py.split "import" line) as [|? [|x ?]]; simplify_eq/=.
    apply Forall_forall. intros y [Hy (z & -> & _)%list_elem_of_fmap]%list_elem_of_filter.
    split; [done|apply strip_idemp].
Qed.

(** ** The grouping of the diagnostics by line *)

Lemma int_cases s : (∃ n, Py.int s = Ok n) ∨ Py.int s = Raise ValueError.
Proof.
  unfold Py.int. destruct (Py.strip s) as [|c t]; [by right|].
  destruct c as [[] [] [] [] [] [] [] []]; cbv beta zeta iota;
    try (destruct t as [|d t]; [by right|]; cbv beta iota);
    match goal with
    | |- context [Py.digits ?a ?u] => destruct (Py.digits a u)
    end; cbn [from_option mbind result_bind]; eauto.
Qed.

Lemma reported_at_cons n line_num unused_module diags :
  reported_at n ((line_num, unused_module) :: diags)
  = match Py.int line_num with
    | Ok m => if decide (m = n) then unused_module :: reported_at n diags
              else reported_at n diags
    | _ => reported_at n diags
    end.
Proof.
  unfold reported_at. cbn [omap list_omap fst snd].
  destruct (Py.int line_num); [case_decide|..]; done.
Qed.

Lemma group_by_line_from (diags : list (string * option string))
    (start by_line : gmap Z (list (option string))) :
  for_each
    (λ (by_line : gmap Z (list (option string))) '(line_num, unused_module),
       key ← Py.int line_num;
       Ok (<[key := default [] (by_line !! key) ++ [unused_module]]> by_line))
    diags start = Ok by_line →
  ∀ n, default [] (by_line !! n) = default [] (start !! n) ++ reported_at n diags.
Proof.
  revert start. induction diags as [|[line_num unused_module] diags IH];
    intros start H n; simpl in H.
  - injection H as <-. by rewrite app_nil_r.
  - rewrite reported_at_cons.
    destruct (Py.int line_num) as [key| |]; cbn [mbind result_bind] in H; [|done..].
    rewrite (IH _ H n). destruct (decide (key = n)) as [->|Hne].
    + rewrite lookup_insert_eq. simpl. by rewrite <- app_assoc.
    + by rewrite lookup_insert_ne.
Qed.

Lemma group_by_line_keys_from (diags : list (string * option string))
    (start by_line : gmap Z (list (option string))) :
  (∀ n l, start !! n = Some l → l ≠ []) →
  for_each
    (λ (by_line : gmap Z (list (option string))) '(line_num, unused_module),
       key ← Py.int line_num;
       Ok (<[key := default [] (by_line !! key) ++ [unused_module]]> by_line))
    diags start = Ok by_line →
  ∀ n l, by_line !! n = Some l → l ≠ [].
Proof.
  revert start. induction diags as [|[line_num unused_module] diags IH];
    intros start Hstart H; simpl in H.
  - by injection H as <-.
  - destruct (Py.int line_num) as [key| |]; cbn [mbind result_bind] in H; [|done..].
    eapply IH; [|exact H]. intros n l.
    destruct (decide (key = n)) as [->|Hne].
    + rewrite lookup_insert_eq. intros [= <-]. by destruct (default [] (start !! n)).
    + rewrite lookup_insert_ne by done. apply Hstart.
Qed.

(** X3: [group_by_line] raises [ValueError] as soon as a line number is
    not a number; otherwise it returns a dict that holds, for every line
    number, the unused modules reported at that line, in the order of the
    diagnostics, and whose keys are the line numbers with a diagnostic:
    no key has an empty list, so the first module of a key exists. *)
Theorem group_by_line_spec (diags : list (string * option string)) :
  (Forall (λ d, ∃ n, Py.int d.1 = Ok n) diags →
   ∃ by_line, group_by_line diags = Ok by_line)
  ∧ (¬ Forall (λ d, ∃ n, Py.int d.1 = Ok n) diags →
     group_by_line diags = Raise ValueError)
  ∧ (∀ by_line, group_by_line diags = Ok by_line →
       ∀ n, default [] (by_line !! n) = reported_at n diags
            ∧ (is_Some (by_line !! n) ↔ reported_at n diags ≠ [])).
Proof.
  unfold group_by_line. split_and!.
  - intros Hall. generalize (∅ : gmap Z (list (option string))).
    induction Hall as [|[line_num unused_module] diags [n Hn] _ IH]; intros start; simpl.
    + eauto.
    + simpl in Hn. rewrite Hn. cbn [mbind result_bind]. apply IH.
  - generalize (∅ : gmap Z (list (option string))).
    induction diags as [|[line_num unused_module] diags IH]; intros start Hnot; simpl.
    + by destruct Hnot.
    + destruct (int_cases line_num) as [[n Hn]|Hn]; rewrite Hn; [|done].
      cbn [mbind result_bind]. apply IH. intros Hall. apply Hnot.
      constructor; [by exists n|done].
  - intros by_line H n.
    pose proof (group_by_line_from _ _ _ H n) as Hn.
    rewrite lookup_empty in Hn. simpl in Hn. split; [done|].
    destruct (by_line !! n) as [l|] eqn:E; simpl in Hn.
    + rewrite <- Hn. split; [|by eauto]. intros _.
      eapply (group_by_line_keys_from _ ∅); [|exact H|exact E].
      intros ??. by rewrite lookup_empty.
    + rewrite <- Hn. split; [by intros [? ?]|done].
Qed.

(** ** The end index and the number of symbols *)

Lemma group_multiline_loop_count fuel file_lines current_index group symbols end_index :
  group_multiline_loop fuel file_lines current_index group = Ok (symbols, end_index) →
  Py.len symbols = Py.len group + (end_index - current_index).
Proof.
  revert current_index group.
  induction fuel as [|fuel IH]; intros cur group; [done|]. simpl.
  intros (line & E & H)%bind_Ok_inv.
  case_decide; [simplify_eq; lia|]. apply IH in H.
  unfold Py.len in *. rewrite length_app in H. simpl in H. lia.
Qed.

Lemma group_escaped_loop_count fuel file_lines current_index group symbols end_index :
  group_escaped_loop fuel file_lines current_index group = Ok (symbols, end_index) →
  Py.len symbols = Py.len group + (end_index - current_index) + 1.
Proof.
  revert current_index group.
  induction fuel as [|fuel IH]; intros cur group; [done|]. simpl.
  intros (line & E & H)%bind_Ok_inv.
  destruct (negb _).
  - simplify_eq. unfold Py.len. rewrite length_app. simpl. lia.
  - apply IH in H. unfold Py.len in *. rewrite length_app in H. simpl in H. lia.
Qed.

(** X4: a grouping that returns gives an end index after the start index
    and inside the buffer, and one symbol for every line it has read: a
    parenthesised statement has as many symbols as lines between the
    start and the end, and a backslash statement has the symbols of its
    first line and one more for each line up to the end. *)
Theorem grouping_spans (start_index : Z) (file_lines symbols : list string)
    (end_index : Z) :
  (group_multiline_imports start_index file_lines = Ok (symbols, end_index) →
   start_index < end_index < Py.len file_lines
   ∧ Py.len symbols = end_index - start_index - 1)
  ∧ (group_escaped_imports start_index file_lines = Ok (symbols, end_index) →
     start_index < end_index < Py.len file_lines
     ∧ ∃ first_line first_symbols,
         Py.getitem file_lines start_index = Ok first_line
         ∧ split_single_line_multi_imports (_clean_line first_line)
           = Ok first_symbols
         ∧ Py.len symbols = Py.len first_symbols + (end_index - start_index)).
Proof.
  split; intros H.
  - split; [by eapply group_multiline_imports_end|].
    apply group_multiline_loop_count in H. unfold Py.len in *. simpl in H. lia.
  - split; [by eapply group_escaped_imports_end|].
    unfold group_escaped_imports in H.
    apply bind_Ok_inv in H as (first_line & Hfirst & H).
    apply bind_Ok_inv in H as (first_symbols & Hsyms & H).
    exists first_line, first_symbols. split; [done|]. split; [done|].
    apply group_escaped_loop_count in H. lia.
Qed.

(** ** The patterns *)

Lemma dot_star_then_no_newline lit s taken rest :
  Re.dot_star_then lit s = Some (taken, rest) → Py.mem "010" taken = false.
Proof.
  revert taken rest. induction s as [|c s IH]; intros taken rest;
    cbn [Re.dot_star_then].
  - destruct (Py.eat lit ""); simpl; [|done]. by intros [= <- _].
  - assert ((λ rest, ("", rest)) <$> Py.eat lit (String c s) = Some (taken, rest) →
            Py.mem "010" taken = false) as Hhere.
    { destruct (Py.eat lit (String c s)); simpl; [|done]. by intros [= <- _]. }
    case_decide; [done|].
    destruct (Re.dot_star_then lit s) as [[t r]|] eqn:E; [|done].
    intros [= <- <-]. simpl. rewrite decide_False by congruence. by eapply IH.
Qed.

Lemma spaces_spec s padding rest :
  Re.spaces s = (padding, rest) →
  s = padding +:+ rest ∧ Py.all Py.is_space padding = true.
Proof.
  revert padding rest. induction s as [|c s IH]; intros padding rest; simpl.
  - by intros [= <- <-].
  - destruct (Py.is_space c) eqn:Hc; [|by intros [= <- <-]].
    destruct (Re.spaces s) as [ws r]. intros [= <- <-].
    destruct (IH ws r eq_refl) as [-> Hws]. rewrite str_app_cons. simpl.
    by rewrite Hc.
Qed.

(** X5: when [BASE_IMPORT_RE] matches, its groups cut the line: the
    first group is the whitespace the line starts with, the second is
    empty or the [from] part up to an [import ] on the same line, and the
    line is the two groups followed by [import ] and a remainder.  A line
    whose first word is import matches with an empty second group, and a
    line [from x import ...] on which no later [import ] follows matches
    with the second group [from x]. *)
Theorem match_base_import_spec :
  (∀ s padding base_import,
     Re.match_base_import s = Some (padding, base_import) →
     Py.all Py.is_space padding = true
     ∧ (∃ rest, s = padding +:+ base_import +:+ "import " +:+ rest)
     ∧ (base_import = ""
        ∨ ∃ module_part, base_import = "from " +:+ module_part
                         ∧ Py.mem "010" module_part = false))
  ∧ (∀ padding rest,
       Py.all Py.is_space padding = true →
       Re.match_base_import (padding +:+ "import " +:+ rest) = Some (padding, ""))
  ∧ (∀ padding module_part rest,
       Py.all Py.is_space padding = true →
       Py.mem "010" module_part = false →
       Py.contains "import " rest = false →
       Re.match_base_import
         (padding +:+ ("from " +:+ module_part) +:+ "import " +:+ rest)
       = Some (padding, "from " +:+ module_part)).
Proof.
  split_and!.
  - intros s padding base_import. unfold Re.match_base_import.
    destruct (Re.spaces s) as [ws text] eqn:Hs.
    apply spaces_spec in Hs as [-> Hws].
    destruct (Py.eat "from " text) as [after_from|] eqn:Hfrom; cbn [mbind option_bind].
    + apply eat_Some in Hfrom as ->.
      destruct (Re.dot_star_then "import " after_from) as [[taken rest]|] eqn:Hstar.
      * intros [= <- <-]. split; [done|].
        pose proof (dot_star_then_no_newline _ _ _ _ Hstar).
        apply dot_star_then_Some in Hstar as ->. split.
        -- exists rest. by rewrite !str_app_assoc.
        -- right. by exists taken.
      * destruct (Py.eat "import " _) eqn:Himport; [|done]. done.
    + destruct (Py.eat "import " text) as [rest|] eqn:Himport; [|done].
      intros [= <- <-]. apply eat_Some in Himport as ->. split; [done|].
      split; [by exists rest|by left].
  - intros padding rest Hpad. unfold Re.match_base_import.
    rewrite spaces_app by done. by rewrite !str_app_cons.
  - intros padding module_part rest Hpad Hnl Hrest. unfold Re.match_base_import.
    rewrite !str_app_assoc. rewrite spaces_app by done.
    rewrite eat_app. cbn [mbind option_bind].
    by rewrite dot_star_then_last_import.
Qed.

(** ** Diagnostics as pyflakes prints them *)

Lemma split_colon_app a rest :
  Py.mem ":" a = false → Py.split ":" (a +:+ ":" +:+ rest) = a :: Py.split ":" rest.
Proof.
  unfold Py.split. induction a as [|d a IH].
  { intros _. rewrite str_app_nil_l, str_app_cons, str_app_nil_l.
    cbn [Py.split_go String.prefix].
    destruct (ascii_dec ":" ":"); [|done]. by destruct rest. }
  intros H. cbn [Py.mem] in H.
  destruct (decide (":"%char = d)) as [|Hd]; [done|].
  rewrite str_app_cons. cbn [Py.split_go String.prefix].
  destruct (ascii_dec ":" d) as [|_]; [done|]. by rewrite IH.
Qed.

Lemma split_colon_none a : Py.mem ":" a = false → Py.split ":" a = [a].
Proof. intros H. apply split_without_separator. by rewrite contains_char. Qed.

Lemma dot_star_then_quote name :
  Py.mem "010" name = false →
  Re.dot_star_then "'" (name +:+ "' imported but unused")
  = Some (name, " imported but unused").
Proof.
  intros Hnl. induction name as [|c x IH]; [done|].
  rewrite str_app_cons. simpl in Hnl.
  destruct (decide ("010"%char = c)) as [|Hc]; [done|].
  cbn [Re.dot_star_then]. rewrite decide_False by congruence. by rewrite IH.
Qed.

(** X6: a diagnostic in the form pyflakes prints, with a path, a line
    number and a name that hold no colon and a name on one line, is
    parsed back into the three parts it was made of. *)
Theorem parse_pyflake_unused_import_error_round_trip (path line_num name : string) :
  Py.mem ":" path = false → Py.mem ":" line_num = false →
  Py.mem ":" name = false → Py.mem "010" name = false →
  parse_pyflake_unused_import_error
    (path +:+ ":" +:+ line_num +:+ ":" +:+ " '" +:+ name +:+ "' imported but unused")
  = Ok (path, line_num, Some name).
Proof.
  intros Hpath Hnum Hname Hnl. unfold parse_pyflake_unused_import_error.
  rewrite split_colon_app by done. rewrite split_colon_app by done.
  rewrite split_colon_none by (by rewrite !mem_app, Hname).
  assert (Py.strip (" '" +:+ name +:+ "' imported but unused")
          = "'" +:+ name +:+ "' imported but unused") as ->.
  { unfold Py.strip. rewrite str_app_cons. cbn [Py.lstrip_with]. simpl Py.is_space.
    cbv iota. rewrite str_app_cons, str_app_nil_l.
    change (Py.lstrip_with Py.is_space (String "'" (name +:+ "' imported but unused")))
      with (String "'" (name +:+ "' imported but unused")).
    rewrite <- str_app_cons. by rewrite rstrip_with_app_keep. }
  unfold Re.match_unused_module_name. rewrite !str_app_cons, str_app_nil_l.
  cbn [Py.eat]. rewrite decide_True by done. cbn [Py.eat mbind option_bind].
  by rewrite dot_star_then_quote.
Qed.

(** ** The filter of the report *)

Lemma dot_star_then_suffix a :
  Py.mem "010" a = false →
  ∃ taken, Re.dot_star_then " imported but unused" (a +:+ " imported but unused")
           = Some (taken, "").
Proof.
  intros Hnl. induction a as [|c x IH]; [by exists ""|].
  rewrite str_app_cons. simpl in Hnl.
  destruct (decide ("010"%char = c)) as [|Hc]; [done|].
  destruct (IH Hnl) as [taken Htaken]. exists (String c taken).
  cbn [Re.dot_star_then]. rewrite decide_False by congruence. by rewrite Htaken.
Qed.

(** X7: of the lines of the report, which hold no newline but their
    last character, [get_unused_imports] keeps, in their order, exactly
    those whose text without the whitespace around it ends with the words
    imported but unused after a space. *)
Theorem unused_import_lines_spec (report_lines : list string) :
  Forall (λ line, Py.mem "010" (Py.strip line) = false) report_lines →
  sublist (unused_import_lines report_lines) report_lines
  ∧ ∀ line, line ∈ unused_import_lines report_lines ↔
            line ∈ report_lines
            ∧ ∃ a, Py.strip line = a +:+ " imported but unused".
Proof.
  intros Hlines. split; [apply sublist_filter|].
  intros line. unfold unused_import_lines. rewrite list_elem_of_filter.
  split; intros [H1 H2].
  - split; [done|]. rename H1 into Hmatch. unfold Re.match_unused_import in Hmatch.
    destruct (Re.dot_star_then _ _) as [[taken rest]|] eqn:E; [|done].
    apply dot_star_then_Some in E.
    assert (Py.mem "010" (Py.strip line) = false) as Hnl
      by (by eapply Forall_forall in Hlines).
    apply orb_prop in Hmatch as [->%bool_decide_eq_true| ->%bool_decide_eq_true].
    + exists taken. by rewrite str_app_nil_r in E.
    + rewrite E, !mem_app in Hnl. by apply orb_false_elim in Hnl as [_ [_ ?]%orb_false_elim].
  - split; [|done]. destruct H2 as [a Ha].
    assert (Py.mem "010" a = false) as Hnl.
    { eapply Forall_forall in Hlines; [|exact H1].
      rewrite Ha, mem_app in Hlines. by apply orb_false_elim in Hlines as [? _]. }
    unfold Re.match_unused_import. rewrite Ha.
    by destruct (dot_star_then_suffix a Hnl) as [taken ->].
Qed.

(** ** Reading and writing a file *)




(** ** One file *)

Lemma for_each_invariant {A S} (P : S → Prop) (body : S → A → result S)
    (l : list A) (s s' : S) :
  (∀ s x s', x ∈ l → P s → body s x = Ok s' → P s') →
  P s → for_each body l s = Ok s' → P s'.
Proof.
  revert s. induction l as [|x l IH]; intros s Hbody Hs; simpl.
  - by intros [= <-].
  - intros (s1 & H1 & H)%bind_Ok_inv. eapply IH; [| |exact H].
    + intros s0 y s0' Hy. apply Hbody. by right.
    + eapply Hbody; [by left|exact Hs|exact H1].
Qed.

Lemma remove_unused_imports_from_file_frame
    re_match_single_import commit_changes file_path unused_imports w w' :
  remove_unused_imports_from_file re_match_single_import commit_changes
    file_path unused_imports w = Ok w' →
  (∀ p, p ≠ file_path → Fs.files w' !! p = Fs.files w !! p)
  ∧ (commit_changes = false ∨ Py.endswith "__init__.py" file_path = true →
     Fs.files w' = Fs.files w)
  ∧ (∀ p, Fs.Opened_for_writing p ∈ Fs.opened w' →
          Fs.Opened_for_writing p ∈ Fs.opened w
          ∨ (p = file_path ∧ commit_changes = true
             ∧ Py.endswith "__init__.py" file_path = false)).
Proof.
  unfold remove_unused_imports_from_file.
  destruct (Py.endswith "__init__.py" file_path).
  { intros [= <-]. simpl. split_and!; auto. }
  unfold Fs.read_lines. cbn [Fs.files Fs.print].
  destruct (Fs.files w !! file_path) as [content|]; cbn [mbind result_bind]; [|done].
  destruct (group_by_line unused_imports) as [by_line| |];
    cbn [mbind result_bind]; [|done..].
  destruct (for_each _ _ _) as [[line_adjustment file_lines]| |];
    cbn [mbind result_bind]; [|done..].
  destruct commit_changes; intros [= <-]; cbn [Fs.files Fs.opened Fs.write_lines].
  - split_and!.
    + intros p Hp. by rewrite lookup_insert_ne.
    + by intros [|].
    + intros p [[= <-]|[[=]|?]%elem_of_cons]%elem_of_cons; auto.
  - split_and!; [done|done|].
    intros p [[=]|?]%elem_of_cons; auto.
Qed.

(** X8: whatever the diagnostics, [remove_unused_imports_from_file]
    changes the content of no file but the one it is given, opens no
    other file for writing, and changes no file at all when
    [commit_changes] is off or the file is an [__init__.py]. *)
Theorem only_the_named_file_is_written
    re_match_single_import commit_changes file_path unused_imports w w' :
  remove_unused_imports_from_file re_match_single_import commit_changes
    file_path unused_imports w = Ok w' →
  (∀ p, p ≠ file_path → Fs.files w' !! p = Fs.files w !! p)
  ∧ (commit_changes = false ∨ Py.endswith "__init__.py" file_path = true →
     Fs.files w' = Fs.files w)
  ∧ (∀ p, Fs.Opened_for_writing p ∈ Fs.opened w' →
          Fs.Opened_for_writing p ∈ Fs.opened w
          ∨ (p = file_path ∧ commit_changes = true
             ∧ Py.endswith "__init__.py" file_path = false)).
Proof. apply remove_unused_imports_from_file_frame. Qed.



(** ** All the files *)

Lemma parse_cases error_line :
  (∃ parsed, parse_pyflake_unused_import_error error_line = Ok parsed)
  ∨ parse_pyflake_unused_import_error error_line = Raise ValueError.
Proof.
  unfold parse_pyflake_unused_import_error.
  destruct (Py.split ":" error_line) as [|? [|? [|? [|]]]]; eauto.
Qed.

Lemma parse_Ok_fields error_line parsed :
  parse_pyflake_unused_import_error error_line = Ok parsed →
  length (Py.split ":" error_line) = 3%nat.
Proof.
  unfold parse_pyflake_unused_import_error.
  by destruct (Py.split ":" error_line) as [|? [|? [|? [|]]]].
Qed.

Section batch_facts.
Variable re_match_single_import : string → string → result bool.
Variable commit_changes : bool.
Variable iteritems :
    gmap string (list (string * option string)) →
    list (string * list (string * option string)).

Local Abbreviation group_step :=
    (λ (files_to_clean : gmap string (list (string * option string)))
       unused_import_error,
       '(path, line_num, unused_module) ←
         parse_pyflake_unused_import_error unused_import_error;
       Ok (<[path := default [] (files_to_clean !! path)
                       ++ [(line_num, unused_module)]]> files_to_clean)).

Lemma group_by_file_raises unused_imports start :
    ¬ Forall (λ line, length (Py.split ":" line) = 3%nat) unused_imports →
    for_each group_step unused_imports start = Raise ValueError.
  Proof.
    revert start. induction unused_imports as [|line lines IH]; intros start Hnot; simpl.
    - by destruct Hnot.
    - destruct (parse_cases line) as [[[[path line_num] unused_module] Hline]|Hline];
        rewrite Hline; [|done].
      cbn [mbind result_bind]. apply IH. intros Hall. apply Hnot.
      constructor; [by eapply parse_Ok_fields|done].
  Qed.

Lemma group_by_file_keys unused_imports start files_to_clean path :
    for_each group_step unused_imports start = Ok files_to_clean →
    is_Some (files_to_clean !! path) →
    is_Some (start !! path)
    ∨ ∃ line line_num unused_module,
        line ∈ unused_imports
        ∧ parse_pyflake_unused_import_error line
          = Ok (path, line_num, unused_module).
  Proof.
    revert start. induction unused_imports as [|line lines IH]; intros start; simpl.
    - intros [= <-]. by left.
    - destruct (parse_pyflake_unused_import_error line)
        as [[[p line_num] unused_module]| |] eqn:Hline;
        cbn [mbind result_bind]; [|done..].
      intros H Hsome. destruct (IH _ H Hsome) as [Hin|(l & n & m & Hl & Hp)].
      + destruct (decide (p = path)) as [->|Hne].
        * right. exists line, line_num, unused_module. split; [by left|done].
        * left. by rewrite lookup_insert_ne in Hin.
      + right. exists l, n, m. split; [by right|done].
  Qed.
End batch_facts.

(** X10: [remove_unused_imports] parses every diagnostic before it
    touches a file, so one diagnostic that does not have three fields
    makes the whole run raise [ValueError].  When the run ends, the
    content of a file is what it was if the file is an [__init__.py], if
    [commit_changes] is off, or if no diagnostic names the file; this
    holds in whatever order the dict gives the files. *)
Theorem remove_unused_imports_spec
    (re_match_single_import : string → string → result bool)
    (commit_changes : bool)
    (iteritems : gmap string (list (string * option string)) →
                 list (string * list (string * option string))) :
  (∀ files_to_clean, iteritems files_to_clean ≡ₚ map_to_list files_to_clean) →
  (∀ unused_imports w,
     ¬ Forall (λ line, length (Py.split ":" line) = 3%nat) unused_imports →
     remove_unused_imports re_match_single_import commit_changes iteritems
       unused_imports w = Raise ValueError)
  ∧ (∀ unused_imports w w' path,
       remove_unused_imports re_match_single_import commit_changes iteritems
         unused_imports w = Ok w' →
       Py.endswith "__init__.py" path = true
       ∨ commit_changes = false
       ∨ (∀ line line_num unused_module,
            line ∈ unused_imports →
            parse_pyflake_unused_import_error line
            ≠ Ok (path, line_num, unused_module)) →
       Fs.files w' !! path = Fs.files w !! path).
Proof.
  intros Hitems. split.
  - intros unused_imports w Hnot. unfold remove_unused_imports, group_by_file.
    by rewrite group_by_file_raises.
  - intros unused_imports w w' path. unfold remove_unused_imports, group_by_file.
    intros (files_to_clean & Hgroup & Hloop)%bind_Ok_inv Hpath.
    eapply (for_each_invariant (λ w1, Fs.files w1 !! path = Fs.files w !! path));
      [|reflexivity|exact Hloop].
    intros w1 [file_path diags] w2 Hin Hw1 Hstep. rewrite <- Hw1.
    apply remove_unused_imports_from_file_frame in Hstep as (Hother & Hsame & _).
    destruct (decide (path = file_path)) as [->|Hne]; [|by apply Hother].
    destruct Hpath as [Hinit|[Hdry|Hnone]].
    + rewrite Hsame; [done|by right].
    + rewrite Hsame; [done|by left].
    + rewrite Hitems in Hin. apply elem_of_map_to_list in Hin.
      destruct (group_by_file_keys _ _ _ file_path Hgroup) as [[? Hempty]|Hdiag];
        [by eexists|by rewrite lookup_empty in Hempty|].
      destruct Hdiag as (line & line_num & unused_module & Hline & Hparse).
      by destruct (Hnone line line_num unused_module Hline).
Qed.

(** ** What the rewriter writes, read again *)



(** ** A statement with nothing or one symbol left *)



Lemma strip_opening_line t :
  Py.strip_chars ("(" +:+ Py.nl) t = t →
  Py.strip_chars ("(" +:+ Py.nl) (Py.ln (t +:+ "(")) = t.
Proof.
  unfold Py.strip_chars, Py.ln. intros [Hl Hr]%strip_with_fixed.
  rewrite str_app_assoc. destruct t as [|c t]; [done|].
  rewrite lstrip_with_app_fixed_cons by done.
  by rewrite rstrip_with_app_all.
Qed.

(** X13: when one symbol of a parenthesised statement is kept and the
    start index is not negative ([0 ≤ index], a position counted from
    the start of the buffer), the edit replaces the lines of the
    statement by one line: the opening line without its parenthesis and
    its newline, the symbol, and a newline, so that the indentation and
    the [from] part are those of the opening line.  The adjustment grows
    by the number of lines lost, [end_index - index]. *)
Theorem one_symbol_left_in_parentheses unused_imports index opening
    line_adjustment file_lines symbols end_index only :
  0 ≤ index →
  Py.strip_chars ("(" +:+ Py.nl) opening = opening →
  group_multiline_imports index file_lines = Ok (symbols, end_index) →
  get_modules_to_keep symbols unused_imports = [only] →
  handle_multiline_imports unused_imports index (Py.ln (opening +:+ "("))
    line_adjustment file_lines
  = Ok (line_adjustment + (end_index - index),
        take (Z.to_nat index) file_lines ++ [opening +:+ only +:+ Py.nl]
        ++ drop (S (Z.to_nat end_index)) file_lines).
Proof.
  intros Hi Hopening Hgroup Hkeep. unfold handle_multiline_imports.
  rewrite Hgroup. cbn [mbind result_bind]. rewrite Hkeep.
  apply group_multiline_imports_end in Hgroup.
  rewrite cut_span by lia. cbn [mbind result_bind].
  rewrite insert_cut_span by lia. rewrite strip_opening_line by done.
  do 2 f_equal. rewrite len_edit by lia. unfold Py.len. simpl. lia.
Qed.

(** ** A file of single imports *)

Lemma without_lines_ext (P Q : list Z) first lines :
  (∀ i, first ≤ i < first + Py.len lines → i ∈ P ↔ i ∈ Q) →
  without_lines P first lines = without_lines Q first lines.
Proof.
  revert first. induction lines as [|line lines IH]; intros first H; [done|].
  cbn [without_lines]. unfold Py.len in H. simpl length in H.
  rewrite (IH (first + 1)) by (intros i Hi; apply H; unfold Py.len in Hi; lia).
  destruct (decide (first ∈ P)) as [HP|HP], (decide (first ∈ Q)) as [HQ|HQ];
    try done; exfalso; [apply HQ|apply HP]; apply (H first); (lia || done).
Qed.

Lemma without_lines_nil first lines : without_lines [] first lines = lines.
Proof.
  revert first. induction lines as [|line lines IH]; intros first; [done|].
  cbn [without_lines]. case_decide as Hin; [by apply not_elem_of_nil in Hin|].
  by rewrite IH.
Qed.

Lemma without_lines_app P first lines1 lines2 :
  without_lines P first (lines1 ++ lines2)
  = without_lines P first lines1
    ++ without_lines P (first + Py.len lines1) lines2.
Proof.
  revert first. induction lines1 as [|line lines IH]; intros first.
  - simpl. f_equal. unfold Py.len. simpl. lia.
  - cbn [app without_lines]. rewrite IH.
    replace (first + 1 + Py.len lines) with (first + Py.len (line :: lines))
      by (unfold Py.len; simpl length; lia).
    by destruct (decide (first ∈ P)).
Qed.

(** Lines above every number to delete are kept. *)
Lemma without_lines_above P first lines :
  (∀ p, p ∈ P → p < first) → without_lines P first lines = lines.
Proof.
  intros H. rewrite (without_lines_ext P []); [apply without_lines_nil|].
  intros i Hi. split; [|by intros ?%not_elem_of_nil].
  intros Hp%H. lia.
Qed.

Section single_imports.
Variable re_match_single_import : string → string → result bool.
Variable by_line : gmap Z (list (option string)).
Variable original : list string.

Local Abbreviation single_at :=
    (single_import_at re_match_single_import by_line original).

Lemma delete_step (done : list Z) (n : Z) :
    single_at n → (∀ d, d ∈ done → d < n) →
    apply_edit re_match_single_import by_line
      (Py.len original - Py.len (without_lines done 1 original),
       without_lines done 1 original) n
    = Ok (Py.len original - Py.len (without_lines (n :: done) 1 original),
          without_lines (n :: done) 1 original).
  Proof.
    intros (line & first & Hn & Hline & Hcomma & Hparen & Hfirst & Hmatch) Hdone.
    pose proof (lookup_lt_Some _ _ _ Hline) as Hlt.
    pose proof (take_drop_middle _ _ _ Hline) as Hsplit.
    set (A := take (Z.to_nat (n - 1)) original) in *.
    set (B := drop (S (Z.to_nat (n - 1))) original) in *.
    assert (Py.len A = n - 1) as HA
      by (unfold A, Py.len; rewrite length_take; lia).
    assert (without_lines done 1 original
            = without_lines done 1 A ++ line :: B) as Hbefore.
    { rewrite <- Hsplit at 1. rewrite without_lines_app. f_equal.
      apply without_lines_above. intros p Hp%Hdone. lia. }
    assert (without_lines (n :: done) 1 original = without_lines done 1 A ++ B)
      as Hafter.
    { rewrite <- Hsplit at 1. rewrite without_lines_app. f_equal.
      - apply without_lines_ext. intros i Hi. rewrite elem_of_cons.
        split; [intros [->|?]; [lia|done]|by right].
      - rewrite HA. replace (1 + (n - 1)) with n by lia. simpl.
        rewrite decide_True by (by left).
        apply without_lines_above. intros p [->|Hp%Hdone]%elem_of_cons; lia. }
    rewrite Hbefore, Hafter. set (WA := without_lines done 1 A).
    assert (Py.len original = Py.len A + 1 + Py.len B) as Horig.
    { rewrite <- Hsplit at 1. unfold Py.len. rewrite length_app. simpl. lia. }
    assert (n - 1 - (Py.len original - Py.len (WA ++ line :: B)) = Py.len WA)
      as Hindex.
    { unfold Py.len in *. rewrite length_app. simpl. lia. }
    unfold apply_edit. rewrite Hindex.
    assert (Py.getitem (WA ++ line :: B) (Py.len WA) = Ok line) as ->.
    { unfold Py.len. rewrite getitem_nonneg by lia. rewrite Nat2Z.id.
      by rewrite list_lookup_middle. }
    cbn [mbind result_bind].
    rewrite decide_False; last first.
    { rewrite split_char_length. apply mem_count in Hcomma. lia. }
    rewrite Hparen, Hfirst. cbn [from_option mbind result_bind].
    rewrite Hmatch. cbn [mbind result_bind].
    unfold handle_single_line_imports, Py.pop, Py.norm_index.
    rewrite decide_True by (unfold Py.len; rewrite length_app; simpl; lia).
    cbn [mbind result_bind].
    replace (Z.to_nat (Py.len WA)) with (length WA) by (unfold Py.len; lia).
    rewrite take_app_length.
    change (WA ++ line :: B) with (WA ++ [line] ++ B).
    rewrite (assoc_L (++) WA [line] B).
    replace (S (length WA)) with (length (WA ++ [line]))
      by (rewrite length_app; simpl; lia).
    rewrite drop_app_length. f_equal. f_equal.
    unfold Py.len in *. rewrite !length_app. simpl. lia.
  Qed.

Lemma delete_loop (keys done : list Z) :
    StronglySorted Z.le keys → NoDup keys →
    (∀ n, n ∈ keys → single_at n) →
    (∀ d n, d ∈ done → n ∈ keys → d < n) →
    ∃ line_adjustment,
      for_each (apply_edit re_match_single_import by_line) keys
        (Py.len original - Py.len (without_lines done 1 original),
         without_lines done 1 original)
      = Ok (line_adjustment, without_lines (keys ++ done) 1 original).
  Proof.
    revert done. induction keys as [|n keys IH]; intros done Hsorted Hnodup Hkeys Hdone.
    - simpl. eauto.
    - cbn [for_each]. rewrite delete_step by (first [apply Hkeys; by left
                                           |intros d Hd; apply Hdone; [done|by left]]).
      cbn [mbind result_bind].
      apply StronglySorted_inv in Hsorted as [Hsorted Hle].
      apply NoDup_cons in Hnodup as [Hn Hnodup].
      destruct (IH (n :: done)) as [la Hla]; [done|done|..].
      + intros m Hm. apply Hkeys. by right.
      + intros d m [->|Hd]%elem_of_cons Hm.
        * eapply Forall_forall in Hle; [|exact Hm].
          assert (n ≠ m) by (intros ->; done). lia.
        * apply Hdone; [done|by right].
      + exists la. rewrite Hla. f_equal. f_equal.
        apply without_lines_ext. intros i _.
        cbn [app]. rewrite elem_of_cons, !elem_of_app, elem_of_cons. tauto.
  Qed.
End single_imports.

(** X14: when every reported line of a file is a statement that imports
    one name, with no comma and no opening parenthesis at its end, and
    the pattern of the reported name matches it, the committed file is
    the file without the reported lines, all other lines being kept in
    their order. *)
Theorem single_imports_are_deleted
    (re_match_single_import : string → string → result bool)
    file_path unused_imports by_line content w :
  Py.endswith "__init__.py" file_path = false →
  Fs.files w !! file_path = Some content →
  group_by_line unused_imports = Ok by_line →
  (∀ n, is_Some (by_line !! n) →
        single_import_at re_match_single_import by_line (Fs.readlines content) n) →
  ∃ w', remove_unused_imports_from_file re_match_single_import true
          file_path unused_imports w = Ok w'
        ∧ Fs.files w'
          = <[file_path :=
                Fs.writelines
                  (without_lines (sorted_keys by_line) 1 (Fs.readlines content))]>
              (Fs.files w).
Proof.
  intros Hinit Hcontent Hgroup Hlines.
  unfold remove_unused_imports_from_file. rewrite Hinit.
  unfold Fs.read_lines. cbn [Fs.files Fs.print]. rewrite Hcontent.
  cbn [mbind result_bind]. rewrite Hgroup. cbn [mbind result_bind].
  destruct (sorted_keys_spec by_line) as (Hsorted & Hnodup & Hkeys).
  destruct (delete_loop re_match_single_import by_line (Fs.readlines content)
              (sorted_keys by_line) [] Hsorted Hnodup) as [la Hla].
  { intros n Hn. apply Hlines. by apply Hkeys. }
  { by intros d n ?%not_elem_of_nil. }
  rewrite without_lines_nil, Z.sub_diag in Hla. rewrite Hla.
  cbn [mbind result_bind]. eexists. split; [reflexivity|].
  cbn [Fs.files Fs.write_lines]. by rewrite app_nil_r.
Qed.

(** X15: an edit at an index that is a position of the buffer never
    makes the buffer longer, and never lowers the adjustment. *)
Theorem edit_never_grows
    (re_match_single_import : string → string → result bool)
    (by_line : gmap Z (list (option string)))
    line_adjustment file_lines line_num line_adjustment' file_lines' :
  0 ≤ line_num - 1 - line_adjustment →
  apply_edit re_match_single_import by_line (line_adjustment, file_lines) line_num
    = Ok (line_adjustment', file_lines') →
  Py.len file_lines' ≤ Py.len file_lines ∧ line_adjustment ≤ line_adjustment'.
Proof.
  intros Hi H.
  apply apply_edit_frame in H as (e & He & (replacement & Hr & ->) & Hdelta); [|done].
  rewrite len_edit in Hdelta by lia.
  assert (Py.len replacement ≤ 1) by (unfold Py.len; lia).
  pose proof (len_edit file_lines replacement (line_num - 1 - line_adjustment) e).
  lia.
Qed.

(** ** The further statements at concrete inputs *)

Lemma clean_line_spec_witness :
  ","%char ≠ "\"%char ∧ Py.is_space "," = false
  ∧ Py.count "," (_clean_line "a, \") = Py.count "," "a, \".
Proof.
  destruct (clean_line_spec "a, \") as (_ & _ & Hcount & _).
  assert (","%char ≠ "\"%char) as Hc by discriminate.
  assert (Py.is_space "," = false) as Hs by reflexivity.
  split; [exact Hc|]. split; [exact Hs|]. exact (Hcount ","%char Hc Hs).
Defined.

Lemma split_single_line_multi_imports_spec_witness :
  split_single_line_multi_imports "from p import a, b" = Ok ["a"; "b"]
  ∧ Forall (λ x, x ≠ "" ∧ Py.strip x = x) ["a"; "b"].
Proof.
  destruct (split_single_line_multi_imports_spec "from p import a, b") as (_ & Hsyms).
  assert (split_single_line_multi_imports "from p import a, b" = Ok ["a"; "b"])
    as H by reflexivity.
  split; [exact H|]. exact (Hsyms _ H).
Defined.

Lemma group_by_line_spec_witness :
  Forall (λ d : string * option string, ∃ n, Py.int d.1 = Ok n)
    [("2", Some "a"); ("2", None)]
  ∧ (∃ by_line, group_by_line [("2", Some "a"); ("2", None)] = Ok by_line)
  ∧ group_by_line [("2", Some "a"); ("2", None)] = Ok {[ 2 := [Some "a"; None] ]}
  ∧ default [] (({[ 2 := [Some "a"; None] ]} : gmap Z (list (option string))) !! 2)
    = reported_at 2 [("2", Some "a"); ("2", None)].
Proof.
  destruct (group_by_line_spec [("2", Some "a"); ("2", None)]) as (Hok & _ & Hspec).
  assert (Forall (λ d : string * option string, ∃ n, Py.int d.1 = Ok n)
            [("2", Some "a"); ("2", None)]) as Hall.
  { repeat constructor; by exists 2. }
  assert (group_by_line [("2", Some "a"); ("2", None)]
          = Ok {[ 2 := [Some "a"; None] ]}) as H by reflexivity.
  split; [exact Hall|]. split; [exact (Hok Hall)|]. split; [exact H|].
  exact (proj1 (Hspec _ H 2)).
Defined.

Lemma grouping_spans_witness :
  group_multiline_imports 1 example_multiline = Ok (["a"; "b"], 4)
  ∧ 1 < 4 < Py.len example_multiline
  ∧ Py.len ["a"; "b"] = 4 - 1 - 1.
Proof.
  destruct (grouping_spans 1 example_multiline ["a"; "b"] 4) as (Hparen & _).
  assert (group_multiline_imports 1 example_multiline = Ok (["a"; "b"], 4))
    as H by reflexivity.
  split; [exact H|]. exact (Hparen H).
Defined.

Lemma match_base_import_spec_witness :
  Re.match_base_import "  from p import a" = Some ("  ", "from p ")
  ∧ Py.all Py.is_space "  " = true
  ∧ (∃ rest, "  from p import a" = "  " +:+ "from p " +:+ "import " +:+ rest)
  ∧ Re.match_base_import ("  " +:+ "import " +:+ "a, b") = Some ("  ", "")
  ∧ Re.match_base_import ("  " +:+ ("from " +:+ "p ") +:+ "import " +:+ "a")
    = Some ("  ", "from " +:+ "p ").
Proof.
  destruct match_base_import_spec as (Hcut & Hbare & Hfrom).
  assert (Re.match_base_import "  from p import a" = Some ("  ", "from p "))
    as H by reflexivity.
  assert (Py.all Py.is_space "  " = true) as Hpad by reflexivity.
  destruct (Hcut _ _ _ H) as (_ & Hrest & _).
  split; [exact H|]. split; [exact Hpad|]. split; [exact Hrest|].
  split; [exact (Hbare "  " "a, b" Hpad)|].
  apply (Hfrom "  " "p " "a" Hpad); reflexivity.
Defined.

Lemma parse_pyflake_unused_import_error_round_trip_witness :
  parse_pyflake_unused_import_error
    ("pkg/f.py" +:+ ":" +:+ "12" +:+ ":" +:+ " '" +:+ "os.path"
       +:+ "' imported but unused")
  = Ok ("pkg/f.py", "12", Some "os.path").
Proof.
  apply (parse_pyflake_unused_import_error_round_trip "pkg/f.py" "12" "os.path");
    reflexivity.
Defined.

Lemma unused_import_lines_spec_witness :
  Forall (λ line, Py.mem "010" (Py.strip line) = false)
    [Py.ln "f.py:1: 'x' imported but unused"; Py.ln "f.py:2: undefined name 'y'"]
  ∧ sublist
      (unused_import_lines
         [Py.ln "f.py:1: 'x' imported but unused"; Py.ln "f.py:2: undefined name 'y'"])
      [Py.ln "f.py:1: 'x' imported but unused"; Py.ln "f.py:2: undefined name 'y'"].
Proof.
  assert (Forall (λ line, Py.mem "010" (Py.strip line) = false)
            [Py.ln "f.py:1: 'x' imported but unused";
             Py.ln "f.py:2: undefined name 'y'"]) as Hlines
    by (repeat constructor).
  split; [exact Hlines|]. exact (proj1 (unused_import_lines_spec _ Hlines)).
Defined.

Lemma only_the_named_file_is_written_witness :
  remove_unused_imports_from_file re_never false "f.py" [("1", Some "os")]
    (Fs.World {[ "f.py" := Py.ln "import os" ]} [] [])
  = Ok (Fs.World {[ "f.py" := Py.ln "import os" ]}
          ["removing unused imports from file: f.py"]
          [Fs.Opened_for_reading "f.py"])
  ∧ Fs.files (Fs.World {[ "f.py" := Py.ln "import os" ]}
                ["removing unused imports from file: f.py"]
                [Fs.Opened_for_reading "f.py"])
    = Fs.files (Fs.World {[ "f.py" := Py.ln "import os" ]} [] []).
Proof.
  assert (remove_unused_imports_from_file re_never false "f.py" [("1", Some "os")]
            (Fs.World {[ "f.py" := Py.ln "import os" ]} [] [])
          = Ok (Fs.World {[ "f.py" := Py.ln "import os" ]}
                  ["removing unused imports from file: f.py"]
                  [Fs.Opened_for_reading "f.py"])) as H by reflexivity.
  split; [exact H|].
  destruct (only_the_named_file_is_written _ _ _ _ _ _ H) as (_ & Hdry & _).
  apply Hdry. left. reflexivity.
Defined.


Lemma remove_unused_imports_spec_witness :
  (∀ m : gmap string (list (string * option string)), map_to_list m ≡ₚ map_to_list m)
  ∧ ¬ Forall (λ line, length (Py.split ":" line) = 3%nat) ["no diagnostic"]
  ∧ remove_unused_imports re_never true map_to_list ["no diagnostic"]
      (Fs.World ∅ [] []) = Raise ValueError.
Proof.
  assert (∀ m : gmap string (list (string * option string)),
            map_to_list m ≡ₚ map_to_list m) as Hitems by reflexivity.
  assert (¬ Forall (λ line, length (Py.split ":" line) = 3%nat) ["no diagnostic"])
    as Hbad.
  { intros H. apply Forall_inv in H. vm_compute in H. discriminate. }
  split; [exact Hitems|]. split; [exact Hbad|].
  destruct (remove_unused_imports_spec re_never true map_to_list Hitems) as (Hraise & _).
  exact (Hraise _ _ Hbad).
Defined.



Lemma one_symbol_left_in_parentheses_witness :
  handle_multiline_imports [Some "a"] 1 (Py.ln ("from p import " +:+ "(")) 0
    example_multiline
  = Ok (0 + (4 - 1),
        take (Z.to_nat 1) example_multiline
        ++ ["from p import " +:+ "b" +:+ Py.nl]
        ++ drop (S (Z.to_nat 4)) example_multiline).
Proof.
  apply (one_symbol_left_in_parentheses [Some "a"] 1 "from p import " 0
           example_multiline ["a"; "b"] 4 "b").
  - lia.
  - reflexivity.
  - reflexivity.
  - reflexivity.
Defined.

Lemma single_imports_are_deleted_witness :
  ∃ w', remove_unused_imports_from_file re_always true "f.py" [("1", Some "os")]
          (Fs.World {[ "f.py" := Py.ln "import os" +:+ Py.ln "x = 1" ]} [] [])
        = Ok w'
        ∧ Fs.files w'
          = <[ "f.py" :=
                 Fs.writelines
                   (without_lines (sorted_keys {[ 1 := [Some "os"] ]}) 1
                      (Fs.readlines (Py.ln "import os" +:+ Py.ln "x = 1"))) ]>
              (Fs.files
                 (Fs.World {[ "f.py" := Py.ln "import os" +:+ Py.ln "x = 1" ]}
                    [] [])).
Proof.
  apply (single_imports_are_deleted re_always "f.py" [("1", Some "os")]
           {[ 1 := [Some "os"] ]} (Py.ln "import os" +:+ Py.ln "x = 1")
           (Fs.World {[ "f.py" := Py.ln "import os" +:+ Py.ln "x = 1" ]} [] [])).
  - reflexivity.
  - reflexivity.
  - reflexivity.
  - intros n [l Hl]. apply lookup_singleton_Some in Hl as [<- _].
    exists (Py.ln "import os"), (Some "os").
    split; [lia|]. repeat (split; [reflexivity|]). reflexivity.
Defined.

Lemma edit_never_grows_witness :
  apply_edit re_never example_overlap_by_line (0, example_overlap) 1
  = Ok (3, example_overlap_first)
  ∧ Py.len example_overlap_first ≤ Py.len example_overlap ∧ 0 ≤ 3.
Proof.
  assert (apply_edit re_never example_overlap_by_line (0, example_overlap) 1
          = Ok (3, example_overlap_first)) as H by reflexivity.
  assert (0 ≤ 1 - 1 - 0) as Hi by lia.
  split; [exact H|].
  exact (edit_never_grows re_never example_overlap_by_line 0 example_overlap 1 3
           example_overlap_first Hi H).
Defined.
